(** * RPS fighting game server: session state machine

    A shallow embedding of the two servers of the repository,

    - [src/unnamed/part_000]: the simultaneous variant ([submit_move],
      [processBattle]), embedded in [Module Simul];
    - [src/server.js]: the alternating variant ([submit_attack],
      [submit_defense]), embedded in [Module Alt];

    and of the helpers both share ([getEffectivenessMultiplier],
    [generateGameId], the damage expression).

    Modelling conventions.
    - JS numbers that hold stats, health and damage are integers ([Z]); the
      effectiveness multipliers 2.0, 1.0 and 0.5 and the draws of
      [Math.random()] are rationals ([Q]).  With integer stats and dyadic
      multipliers the IEEE computation of the source is exact, so [Qfloor]
      is [Math.floor].
    - [MoveType|null] and [string|null] are [option string].
    - The registry [games] (a JS object used as a dictionary) is a
      [gmap string Game]; a handler mutates the session object in place, which
      is an insertion of the updated record under the same key.
    - [setTimeout] callbacks are recorded in the state as pending timers.
    - A handler returns the state it leaves behind, the messages it emitted,
      and the exception that escaped it, if any. *)

From Stdlib Require Import ZArith QArith Qround String Ascii List Lia.
From stdpp Require Import base option list strings gmap fin_maps pretty.

Local Open Scope string_scope.

(** ** Shared helpers *)

(** [MoveType] of the JSDoc typedef, and the spelling the wire uses. *)
Inductive Move := rock | paper | scissors.

Definition moveName (m : Move) : string :=
  match m with
  | rock => "rock"
  | paper => "paper"
  | scissors => "scissors"
  end.

#[global] Instance Move_eq_dec : EqDecision Move.
Proof. solve_decision. Defined.

Definition SUPER_EFFECTIVE : Q := 2.
Definition NORMAL_EFFECTIVE : Q := 1.
Definition NOT_EFFECTIVE : Q := 1 # 2.

(** The object literal [{ multiplier, type }]. *)
Record Effectiveness := mkEffectiveness {
  multiplier : Q;
  type : string
}.

(** [attackType === "rock"] on a value that is a string or [null]. *)
Definition is_move (v : option string) (s : string) : bool :=
  bool_decide (v = Some s).

Definition getEffectivenessMultiplier (attackType defenseType : option string)
  : Effectiveness :=
  if (is_move attackType "rock" && is_move defenseType "scissors")
     || (is_move attackType "scissors" && is_move defenseType "paper")
     || (is_move attackType "paper" && is_move defenseType "rock")
  then mkEffectiveness SUPER_EFFECTIVE "super"
  else if bool_decide (attackType = defenseType)
  then mkEffectiveness NORMAL_EFFECTIVE "normal"
  else mkEffectiveness NOT_EFFECTIVE "not".

(** The dominance table in the words of the specification: rock beats
    scissors, scissors beats paper, paper beats rock. *)
Definition beats (a d : Move) : bool :=
  match a, d with
  | rock, scissors | scissors, paper | paper, rock => true
  | _, _ => false
  end.

(** [Math.floor(Math.random() * 5)], for the draw [rnd] of [Math.random()]. *)
Definition jitter (rnd : Q) : Z := Qfloor (rnd * 5).

(** [Math.max(5, Math.floor(attack * multiplier - defense
                              + Math.floor(Math.random() * 5)))]. *)
Definition damage (attack : Z) (mult : Q) (defense : Z) (rnd : Q) : Z :=
  Z.max 5 (Qfloor (inject_Z attack * mult - inject_Z defense
                   + inject_Z (jitter rnd))).


(** [String.prototype.toUpperCase] on the characters [toString(36)] can
    produce (digits, lower-case letters and the point). *)
Definition upper_ascii (c : ascii) : ascii :=
  let n := nat_of_ascii c in
  if (97 <=? n)%nat && (n <=? 122)%nat then ascii_of_nat (n - 32) else c.

Fixpoint toUpperCase (s : string) : string :=
  match s with
  | EmptyString => EmptyString
  | String c s' => String (upper_ascii c) (toUpperCase s')
  end.

(** [Math.random().toString(36).substring(2, 8).toUpperCase()].  The argument
    [r36] is the value of [Math.random().toString(36)], the base-36 rendering
    of the draw (such as ["0.k2j9x0p4s1"]); [substring(2, 8)] keeps the six
    characters at positions 2 to 7, fewer when the rendering is shorter.
    Nothing else is consulted: the registry is not an input. *)
Definition generateGameId (r36 : string) : string :=
  toUpperCase (substring 2 6 r36).

Inductive Phase := waiting | selection | battle | game_over.

#[global] Instance Phase_eq_dec : EqDecision Phase.
Proof. solve_decision. Defined.

(** Rendering of a [MoveType|null] inside a template literal. *)
Definition show_move (v : option string) : string := default "null" v.

(** The text appended to an attack line of the log. *)
Definition effectivenessText (ty : string) : string :=
  if bool_decide (ty = "super") then "It's super effective!"
  else if bool_decide (ty = "not") then "It's not very effective..."
  else "".

(** [x || fallback] on a value that is a string or [undefined]: the empty
    string is falsy as well. *)
Definition or_else (v : option string) (fallback : string) : string :=
  match v with
  | Some s => if bool_decide (s = "") then fallback else s
  | None => fallback
  end.

(** [x || null] on a value that is a string or [undefined]. *)
Definition or_null (v : option string) : option string :=
  match v with
  | Some s => if bool_decide (s = "") then None else Some s
  | None => None
  end.

(** What a [setTimeout] callback of the servers does when it runs: it
    deletes the session from the registry, or it broadcasts to the room the
    session object as it is by then, or the second attack animation.  The
    two broadcasts write nothing. *)
Inductive TimerAction :=
  | DeleteGame (gameId : string)
  | EmitGameState (gameId : string)
  | EmitSecondAnimation (gameId : string).

Record Timer := mkTimer {
  delay : Z;
  action : TimerAction
}.

(** ** The simultaneous variant ([src/unnamed/part_000]) *)

Module Simul.

Record Player := mkPlayer {
  player_id : string;
  player_name : string;
  health : Z;
  maxHealth : Z;
  attack : Z;
  defense : Z;
  currentAttackType : option string;
  currentDefenseType : option string;
  ready : bool
}.

Record Game := mkGame {
  game_id : string;
  players : list Player;
  currentTurn : option string;
  phase : Phase;
  winner : option string;
  gameLog : list string
}.

(** The registry [games] and the callbacks waiting in the timer queue. *)
Record State := mkState {
  games : gmap string Game;
  timers : list Timer
}.

Inductive Payload :=
  | ErrorMsg (message : string)
  | GameJoined (gameId : string)
  | GameStateUpdate (snapshot : Game)
  | AvailableGames (listing : list (string * string * nat))
  | AttackAnimation (attackerId defenderId : string)
      (attackType defenseType : option string) (effectiveness : string)
  | GameOver (winnerId : option string).

(** [socket.emit] answers the requester, [io.to(room).emit] the room. *)
Inductive Emit :=
  | ToSocket (p : Payload)
  | ToRoom (room : string) (p : Payload).

Record Result := mkResult {
  state_after : State;
  emitted : list Emit;
  thrown : option string
}.

Definition init : State := mkState ∅ [].

Definition newPlayer (playerId playerName : string) : Player :=
  mkPlayer playerId playerName 100 100 15 5 None None false.

Definition set_players (g : Game) (ps : list Player) : Game :=
  mkGame (game_id g) ps (currentTurn g) (phase g) (winner g) (gameLog g).
Definition set_currentTurn (g : Game) (t : option string) : Game :=
  mkGame (game_id g) (players g) t (phase g) (winner g) (gameLog g).
Definition set_phase (g : Game) (ph : Phase) : Game :=
  mkGame (game_id g) (players g) (currentTurn g) ph (winner g) (gameLog g).
Definition set_winner (g : Game) (w : option string) : Game :=
  mkGame (game_id g) (players g) (currentTurn g) (phase g) w (gameLog g).
Definition set_gameLog (g : Game) (l : list string) : Game :=
  mkGame (game_id g) (players g) (currentTurn g) (phase g) (winner g) l.

Definition set_health (p : Player) (h : Z) : Player :=
  mkPlayer (player_id p) (player_name p) h (maxHealth p) (attack p)
    (defense p) (currentAttackType p) (currentDefenseType p) (ready p).
Definition set_moves (p : Player) (a d : option string) (r : bool) : Player :=
  mkPlayer (player_id p) (player_name p) (health p) (maxHealth p) (attack p)
    (defense p) a d r.

(** [l.find(p => p.id === playerId)] and [l.find(p => p.id !== playerId)]. *)
Definition find_id (playerId : string) (l : list Player) : option Player :=
  List.find (fun p => bool_decide (player_id p = playerId)) l.
Definition find_other (playerId : string) (l : list Player) : option Player :=
  List.find (fun p => bool_decide (player_id p <> playerId)) l.

(** A write through the reference that [find] returned: the first element
    with that id is the object updated. *)
Fixpoint update_found (playerId : string) (u : Player -> Player)
    (l : list Player) : list Player :=
  match l with
  | [] => []
  | p :: l' =>
      if bool_decide (player_id p = playerId) then u p :: l'
      else p :: update_found playerId u l'
  end.

(** What [processBattle] leaves behind: the session as mutated, the
    messages sent at once, the callbacks scheduled, and the exception that
    escaped, if any. *)
Record Battle := mkBattle {
  battle_game : Game;
  battle_emitted : list Emit;
  battle_timers : list Timer;
  battle_thrown : option string
}.

(** [processBattle(game, io)]; [rnd1] and [rnd2] are the two draws of
    [Math.random()], in the order the source takes them. *)
Definition processBattle (game : Game) (rnd1 rnd2 : Q) : Battle :=
  match players game with
  | player1 :: player2 :: rest =>
      let p1AttackType := currentAttackType player1 in
      let p2DefenseType := currentDefenseType player2 in
      let p1Effectiveness :=
        getEffectivenessMultiplier p1AttackType p2DefenseType in
      let p1Damage :=
        damage (attack player1) (multiplier p1Effectiveness)
          (defense player2) rnd1 in
      let p2AttackType := currentAttackType player2 in
      let p1DefenseType := currentDefenseType player1 in
      let p2Effectiveness :=
        getEffectivenessMultiplier p2AttackType p1DefenseType in
      let p2Damage :=
        damage (attack player2) (multiplier p2Effectiveness)
          (defense player1) rnd2 in
      let player2 := set_health player2 (Z.max 0 (health player2 - p1Damage)) in
      let player1 := set_health player1 (Z.max 0 (health player1 - p2Damage)) in
      let log1 :=
        player_name player1 +:+ " attacks with " +:+ show_move p1AttackType
        +:+ " for " +:+ pretty p1Damage +:+ " damage! "
        +:+ effectivenessText (type p1Effectiveness) in
      let log2 :=
        player_name player2 +:+ " attacks with " +:+ show_move p2AttackType
        +:+ " for " +:+ pretty p2Damage +:+ " damage! "
        +:+ effectivenessText (type p2Effectiveness) in
      let game := set_gameLog game (log1 :: log2 :: gameLog game) in
      let anim1 :=
        ToRoom (game_id game)
          (AttackAnimation (player_id player1) (player_id player2)
             p1AttackType p2DefenseType (type p1Effectiveness)) in
      let tAnim := mkTimer 2000 (EmitSecondAnimation (game_id game)) in
      let tState := mkTimer 4000 (EmitGameState (game_id game)) in
      if bool_decide (health player1 <= 0)%Z || bool_decide (health player2 <= 0)%Z
      then
        let game := set_phase game game_over in
        let game :=
          if bool_decide (health player1 <= 0)%Z
             && bool_decide (health player2 <= 0)%Z
          then
            set_gameLog (set_winner game None)
              ("The battle ended in a draw!" :: gameLog game)
          else if bool_decide (health player1 <= 0)%Z
          then
            set_gameLog (set_winner game (Some (player_id player2)))
              ((player_name player2 +:+ " wins the battle!") :: gameLog game)
          else
            set_gameLog (set_winner game (Some (player_id player1)))
              ((player_name player1 +:+ " wins the battle!") :: gameLog game)
        in
        let game := set_players game (player1 :: player2 :: rest) in
        mkBattle game
          [anim1; ToRoom (game_id game) (GameOver (winner game))]
          [tAnim; tState] None
      else
        let player1 := set_moves player1 None None false in
        let player2 := set_moves player2 None None false in
        let game := set_phase game selection in
        let game := set_currentTurn game (Some (player_id player1)) in
        let game := set_players game (player1 :: player2 :: rest) in
        mkBattle game [anim1] [tAnim; tState] None
  | _ =>
      (* [player2] (or [player1]) is [undefined]: reading its move throws *)
      mkBattle game [] [] (Some "TypeError")
  end.

(** The handler of [create_game]; [r36] is [Math.random().toString(36)]. *)
Definition create_game (st : State) (playerId playerName r36 : string)
  : Result :=
  let gameId := generateGameId r36 in
  let game :=
    mkGame gameId [newPlayer playerId playerName] None waiting None
      ["Waiting for opponent to join..."] in
  mkResult (mkState (<[gameId := game]> (games st)) (timers st))
    [ToSocket (GameJoined gameId)] None.

(** The handler of [join_game]. *)
Definition join_game (st : State) (gameId playerId playerName : string)
  : Result :=
  match games st !! gameId with
  | None => mkResult st [ToSocket (ErrorMsg "Game not found")] None
  | Some game =>
      if bool_decide (2 <= length (players game))%nat
      then mkResult st [ToSocket (ErrorMsg "Game is full")] None
      else
        let joiner := newPlayer playerId playerName in
        let game := set_players game (players game ++ [joiner]) in
        let first := default joiner (head (players game)) in
        let game := set_phase game selection in
        let game := set_currentTurn game (Some (player_id first)) in
        let game :=
          set_gameLog game
            [playerName +:+ " joined the game. " +:+ player_name first
             +:+ " goes first!"] in
        mkResult (mkState (<[gameId := game]> (games st)) (timers st))
          [ToRoom gameId (GameStateUpdate game); ToSocket (GameJoined gameId)]
          None
  end.

(** The listing of [get_available_games]; [None] when [game.players[0]] is
    [undefined] for a listed game, where reading its name throws.  The order
    of [Object.values] is not modelled: the listing is in the order of
    [map_to_list]. *)
Definition availableGames (st : State) : option (list (string * string * nat)) :=
  mapM (fun g : Game =>
          match head (players g) with
          | Some p0 => Some (game_id g, player_name p0, length (players g))
          | None => None
          end)
    (List.filter
       (fun g : Game =>
          bool_decide (phase g = waiting)
          && bool_decide (length (players g) < 2)%nat)
       (map snd (map_to_list (games st)))).

Definition get_available_games (st : State) : Result :=
  match availableGames st with
  | Some l => mkResult st [ToSocket (AvailableGames l)] None
  | None => mkResult st [] (Some "TypeError")
  end.

(** The handler of [submit_move]; [rnd1] and [rnd2] are the draws
    [processBattle] takes when it runs. *)
Definition submit_move (st : State) (gameId playerId attackType defenseType : string)
    (rnd1 rnd2 : Q) : Result :=
  match games st !! gameId with
  | None => mkResult st [ToSocket (ErrorMsg "Game not found")] None
  | Some game =>
      match find_id playerId (players game) with
      | None => mkResult st [ToSocket (ErrorMsg "Player not found in game")] None
      | Some player =>
          if bool_decide (currentTurn game <> Some playerId)
          then mkResult st [ToSocket (ErrorMsg "Not your turn")] None
          else
            let game :=
              set_players game
                (update_found playerId
                   (fun p => set_moves p (Some attackType) (Some defenseType) true)
                   (players game)) in
            let allPlayersReady := forallb ready (players game) in
            if allPlayersReady then
              let b := processBattle game rnd1 rnd2 in
              mkResult
                (mkState (<[gameId := battle_game b]> (games st))
                   (timers st ++ battle_timers b))
                (battle_emitted b) (battle_thrown b)
            else
              let game :=
                set_currentTurn game
                  (or_null (player_id <$> find_other playerId (players game))) in
              let game :=
                set_gameLog game
                  ((player_name player
                    +:+ " has chosen their move. Waiting for opponent...")
                   :: gameLog game) in
              mkResult (mkState (<[gameId := game]> (games st)) (timers st))
                [ToRoom gameId (GameStateUpdate game)] None
      end
  end.

(** The handler of [leave_game]. *)
Definition leave_game (st : State) (gameId playerId : string) : Result :=
  match games st !! gameId with
  | None => mkResult st [] None
  | Some game =>
      let out :=
        match find_other playerId (players game) with
        | Some otherPlayer =>
            let line :=
              or_else (player_name <$> find_id playerId (players game)) "Opponent"
              +:+ " left the game." in
            [ToRoom gameId
               (GameStateUpdate
                  (set_gameLog
                     (set_winner (set_phase game game_over)
                        (Some (player_id otherPlayer)))
                     (line :: gameLog game)))]
        | None => []
        end in
      mkResult (mkState (games st) (timers st ++ [mkTimer 5000 (DeleteGame gameId)]))
        out None
  end.

(** The effect on the state of the [n]-th pending callback running.  The
    delayed broadcasts read the session object but do not write it. *)
Definition run_action (a : TimerAction) (g : gmap string Game)
  : gmap string Game :=
  match a with
  | DeleteGame gameId => delete gameId g
  | EmitGameState _ | EmitSecondAnimation _ => g
  end.

Definition fire_timer (st : State) (n : nat) : State :=
  match timers st !! n with
  | Some t => mkState (run_action (action t) (games st)) (delete n (timers st))
  | None => st
  end.

(** What can happen to the server: a client message or a timer. *)
Inductive Request :=
  | CreateGame (playerId playerName r36 : string)
  | JoinGame (gameId playerId playerName : string)
  | GetAvailableGames
  | SubmitMove (gameId playerId attackType defenseType : string) (rnd1 rnd2 : Q)
  | LeaveGame (gameId playerId : string)
  | TimerFires (n : nat).

Definition handle (st : State) (req : Request) : Result :=
  match req with
  | CreateGame p n r => create_game st p n r
  | JoinGame g p n => join_game st g p n
  | GetAvailableGames => get_available_games st
  | SubmitMove g p a d r1 r2 => submit_move st g p a d r1 r2
  | LeaveGame g p => leave_game st g p
  | TimerFires n => mkResult (fire_timer st n) [] None
  end.

(** The states the server can be in.  A handler that throws leaves the state
    as it was at the throw; whether the process survives is not modelled, so
    the states after a throw are kept. *)
Inductive reachable : State -> Prop :=
  | reachable_init : reachable init
  | reachable_step st req :
      reachable st -> reachable (state_after (handle st req)).

(** The healths [processBattle] writes. *)
Definition health1_after (player1 player2 : Player) (rnd2 : Q) : Z :=
  Z.max 0
    (health player1
     - damage (attack player2)
         (multiplier (getEffectivenessMultiplier (currentAttackType player2)
                        (currentDefenseType player1)))
         (defense player1) rnd2).

Definition health2_after (player1 player2 : Player) (rnd1 : Q) : Z :=
  Z.max 0
    (health player2
     - damage (attack player1)
         (multiplier (getEffectivenessMultiplier (currentAttackType player1)
                        (currentDefenseType player2)))
         (defense player2) rnd1).

(** *** Invariants of the stored sessions *)

(** No stored session holds more than two players. *)
Definition two_at_most (m : gmap string Game) : Prop :=
  map_Forall (fun _ g => (length (players g) <= 2)%nat) m.

(** A session with a winner is over, and one of its two players is down. *)
Definition winner_inv (g : Game) : Prop :=
  winner g <> None ->
  phase g = game_over
  /\ exists h1 h2 hs,
       map health (players g) = h1 :: h2 :: hs /\ ((h1 <= 0)%Z \/ (h2 <= 0)%Z).

(** *** The shape of the stored sessions *)

(** The stats a player is created with, and a health between 0 and 100. *)
Definition player_ok (p : Player) : Prop :=
  attack p = 15%Z /\ defense p = 5%Z /\ maxHealth p = 100%Z
  /\ (0 <= health p <= 100)%Z.

(** Two records of one player that differ at most in moves and readiness. *)
Definition same_stats (p p' : Player) : Prop :=
  player_id p' = player_id p /\ health p' = health p
  /\ attack p' = attack p /\ defense p' = defense p
  /\ maxHealth p' = maxHealth p.

(** What holds of the session stored under [key]: a waiting session has its
    host only and nobody holds the turn; a session in [selection] has two
    players standing and no winner; a finished session has two players, one
    of them at 0. *)
Definition session_inv (key : string) (g : Game) : Prop :=
  game_id g = key
  /\ Forall player_ok (players g)
  /\ ((phase g = waiting /\ length (players g) = 1%nat
       /\ Forall (fun p => (0 < health p)%Z) (players g)
       /\ currentTurn g = None /\ winner g = None)
      \/ (phase g = selection /\ length (players g) = 2%nat
          /\ Forall (fun p => (0 < health p)%Z) (players g)
          /\ winner g = None)
      \/ (phase g = game_over /\ length (players g) = 2%nat
          /\ Exists (fun p => health p = 0%Z) (players g))).

(** The state after a sequence of requests, throws included. *)
Definition steps (st : State) (reqs : list Request) : State :=
  fold_left (fun st req => state_after (handle st req)) reqs st.

End Simul.

(** ** The alternating variant ([src/server.js]) *)

Module Alt.

Inductive TurnType := ATTACK | DEFEND.

#[global] Instance TurnType_eq_dec : EqDecision TurnType.
Proof. solve_decision. Defined.

Record Player := mkPlayer {
  player_id : string;
  player_name : string;
  health : Z;
  maxHealth : Z;
  attack : Z;
  defense : Z;
  currentAttackType : option string;
  currentDefenseType : option string
}.

(** The object literal [{ playerId, attackType }]. *)
Record PendingAttack := mkPendingAttack {
  pending_playerId : string;
  pending_attackType : string
}.

Record Game := mkGame {
  game_id : string;
  players : list Player;
  currentTurn : option string;
  currentTurnType : TurnType;
  pendingAttack : option PendingAttack;
  phase : Phase;
  winner : option string;
  gameLog : list string
}.

Record State := mkState {
  games : gmap string Game;
  timers : list Timer
}.

Inductive Payload :=
  | ErrorMsg (message : string)
  | GameJoined (gameId : string) (gameState : option Game)
  | GameStateUpdate (snapshot : Game)
  | AvailableGames (listing : list (string * string * nat))
  | AttackAnimation (attackerId defenderId : string)
      (attackType defenseType : string) (effectiveness : string)
  | GameOver (winnerId : string).

(** [socket.emit], [io.to(room).emit] and [io.emit]. *)
Inductive Emit :=
  | ToSocket (p : Payload)
  | ToRoom (room : string) (p : Payload)
  | ToAll (p : Payload).

Record Result := mkResult {
  state_after : State;
  emitted : list Emit;
  thrown : option string
}.

Definition init : State := mkState ∅ [].

Definition newPlayer (playerId playerName : string) : Player :=
  mkPlayer playerId playerName 100 100 15 5 None None.

Definition set_players (g : Game) (ps : list Player) : Game :=
  mkGame (game_id g) ps (currentTurn g) (currentTurnType g) (pendingAttack g)
    (phase g) (winner g) (gameLog g).
Definition set_turn (g : Game) (t : option string) (ty : TurnType) : Game :=
  mkGame (game_id g) (players g) t ty (pendingAttack g)
    (phase g) (winner g) (gameLog g).
Definition set_pendingAttack (g : Game) (pa : option PendingAttack) : Game :=
  mkGame (game_id g) (players g) (currentTurn g) (currentTurnType g) pa
    (phase g) (winner g) (gameLog g).
Definition set_phase (g : Game) (ph : Phase) : Game :=
  mkGame (game_id g) (players g) (currentTurn g) (currentTurnType g)
    (pendingAttack g) ph (winner g) (gameLog g).
Definition set_winner (g : Game) (w : option string) : Game :=
  mkGame (game_id g) (players g) (currentTurn g) (currentTurnType g)
    (pendingAttack g) (phase g) w (gameLog g).
Definition set_gameLog (g : Game) (l : list string) : Game :=
  mkGame (game_id g) (players g) (currentTurn g) (currentTurnType g)
    (pendingAttack g) (phase g) (winner g) l.

Definition set_health (h : Z) (p : Player) : Player :=
  mkPlayer (player_id p) (player_name p) h (maxHealth p) (attack p)
    (defense p) (currentAttackType p) (currentDefenseType p).
Definition set_attackType (a : option string) (p : Player) : Player :=
  mkPlayer (player_id p) (player_name p) (health p) (maxHealth p) (attack p)
    (defense p) a (currentDefenseType p).
Definition set_defenseType (d : option string) (p : Player) : Player :=
  mkPlayer (player_id p) (player_name p) (health p) (maxHealth p) (attack p)
    (defense p) (currentAttackType p) d.

Definition find_id (playerId : string) (l : list Player) : option Player :=
  List.find (fun p => bool_decide (player_id p = playerId)) l.
Definition find_other (playerId : string) (l : list Player) : option Player :=
  List.find (fun p => bool_decide (player_id p <> playerId)) l.

(** A write through the reference that [find] returned. *)
Fixpoint update_found (playerId : string) (u : Player -> Player)
    (l : list Player) : list Player :=
  match l with
  | [] => []
  | p :: l' =>
      if bool_decide (player_id p = playerId) then u p :: l'
      else p :: update_found playerId u l'
  end.

(** The listing that [broadcastAvailableGames] and [get_available_games]
    build; [None] when [game.players[0]] is [undefined] for a listed game,
    where reading its name throws.  The order of [Object.values] is not
    modelled: the listing is in the order of [map_to_list]. *)
Definition availableGames (g : gmap string Game)
  : option (list (string * string * nat)) :=
  mapM (fun g : Game =>
          match head (players g) with
          | Some p0 => Some (game_id g, player_name p0, length (players g))
          | None => None
          end)
    (List.filter
       (fun g : Game =>
          bool_decide (phase g = waiting)
          && bool_decide (length (players g) < 2)%nat)
       (map snd (map_to_list g))).

(** The end of a handler that calls [broadcastAvailableGames()] last. *)
Definition broadcastAvailableGames (st : State) (sent : list Emit) : Result :=
  match availableGames (games st) with
  | Some l => mkResult st (sent ++ [ToAll (AvailableGames l)]) None
  | None => mkResult st sent (Some "TypeError")
  end.

(** The handler of [create_game]; [r36] is [Math.random().toString(36)]. *)
Definition create_game (st : State) (playerId playerName r36 : string)
  : Result :=
  let gameId := generateGameId r36 in
  let game :=
    mkGame gameId [newPlayer playerId playerName] None ATTACK None waiting None
      ["Waiting for opponent to join..."] in
  broadcastAvailableGames
    (mkState (<[gameId := game]> (games st)) (timers st))
    [ToSocket (GameJoined gameId None)].

(** The handler of [join_game]. *)
Definition join_game (st : State) (gameId playerId playerName : string)
  : Result :=
  match games st !! gameId with
  | None => mkResult st [ToSocket (ErrorMsg "Game not found")] None
  | Some game =>
      if bool_decide (2 <= length (players game))%nat
      then mkResult st [ToSocket (ErrorMsg "Game is full")] None
      else
        let joiner := newPlayer playerId playerName in
        let game := set_players game (players game ++ [joiner]) in
        let first := default joiner (head (players game)) in
        let game := set_phase game selection in
        let game := set_turn game (Some (player_id first)) ATTACK in
        let game := set_pendingAttack game None in
        let game :=
          set_gameLog game
            [playerName +:+ " joined the game. " +:+ player_name first
             +:+ " goes first with an attack!"] in
        broadcastAvailableGames
          (mkState (<[gameId := game]> (games st))
             (timers st ++ [mkTimer 500 (EmitGameState gameId)]))
          [ToSocket (GameJoined gameId (Some game))]
  end.

Definition get_available_games (st : State) : Result :=
  match availableGames (games st) with
  | Some l => mkResult st [ToSocket (AvailableGames l)] None
  | None => mkResult st [] (Some "TypeError")
  end.

(** The handler of [submit_attack]. *)
Definition submit_attack (st : State) (gameId playerId attackType : string)
  : Result :=
  match games st !! gameId with
  | None => mkResult st [ToSocket (ErrorMsg "Game not found")] None
  | Some game =>
      match find_id playerId (players game) with
      | None => mkResult st [ToSocket (ErrorMsg "Player not found in game")] None
      | Some player =>
          if bool_decide (currentTurn game <> Some playerId)
             || bool_decide (currentTurnType game <> ATTACK)
          then mkResult st [ToSocket (ErrorMsg "Not your turn to attack")] None
          else
            let game :=
              set_players game
                (update_found playerId (set_attackType (Some attackType))
                   (players game)) in
            let game :=
              set_pendingAttack game
                (Some (mkPendingAttack playerId attackType)) in
            match find_other playerId (players game) with
            | None =>
                (* [defender] is [undefined]: reading [defender.id] throws *)
                mkResult (mkState (<[gameId := game]> (games st)) (timers st))
                  [] (Some "TypeError")
            | Some defender =>
                let game := set_turn game (Some (player_id defender)) DEFEND in
                let game :=
                  set_gameLog game
                    ((player_name player +:+ " chose " +:+ attackType
                      +:+ " attack. " +:+ player_name defender
                      +:+ " must choose a defense.") :: gameLog game) in
                mkResult (mkState (<[gameId := game]> (games st)) (timers st))
                  [ToRoom gameId (GameStateUpdate game)] None
            end
      end
  end.

(** The handler of [submit_defense]; [rnd] is the draw of [Math.random()]. *)
Definition submit_defense (st : State) (gameId playerId defenseType : string)
    (rnd : Q) : Result :=
  match games st !! gameId with
  | None => mkResult st [ToSocket (ErrorMsg "Game not found")] None
  | Some game =>
      match find_id playerId (players game) with
      | None => mkResult st [ToSocket (ErrorMsg "Player not found in game")] None
      | Some defender =>
          match pendingAttack game with
          | None =>
              (* [game.pendingAttack] is [null]: reading [.playerId] throws *)
              mkResult st [] (Some "TypeError")
          | Some pending =>
              let attackerId := pending_playerId pending in
              let attackType := pending_attackType pending in
              let found := find_id attackerId (players game) in
              let game :=
                set_players game
                  (update_found playerId (set_defenseType (Some defenseType))
                     (players game)) in
              let eff :=
                getEffectivenessMultiplier (Some attackType) (Some defenseType) in
              match found with
              | None =>
                  (* [attacker] is [undefined]: reading [.attack] throws *)
                  mkResult (mkState (<[gameId := game]> (games st)) (timers st))
                    [] (Some "TypeError")
              | Some attacker =>
                  let dmg :=
                    damage (attack attacker) (multiplier eff)
                      (defense defender) rnd in
                  let newHealth := Z.max 0 (health defender - dmg) in
                  let game :=
                    set_players game
                      (update_found playerId (set_health newHealth)
                         (players game)) in
                  let game :=
                    set_gameLog game
                      ((player_name defender +:+ " defended with "
                        +:+ defenseType +:+ ".")
                       :: (player_name attacker +:+ "'s " +:+ attackType
                           +:+ " attack dealt " +:+ pretty dmg +:+ " damage! "
                           +:+ effectivenessText (type eff))
                       :: gameLog game) in
                  let anim :=
                    ToRoom gameId
                      (AttackAnimation (player_id attacker) (player_id defender)
                         attackType defenseType (type eff)) in
                  let later := mkTimer 2000 (EmitGameState gameId) in
                  if bool_decide (newHealth <= 0)%Z
                  then
                    let game := set_phase game game_over in
                    let game := set_winner game (Some (player_id attacker)) in
                    let game :=
                      set_gameLog game
                        ((player_name attacker +:+ " wins the battle!")
                         :: gameLog game) in
                    mkResult
                      (mkState (<[gameId := game]> (games st))
                         (timers st ++ [later]))
                      [anim; ToRoom gameId (GameOver (player_id attacker))] None
                  else
                    let game :=
                      set_turn game (Some (player_id defender)) ATTACK in
                    let game := set_pendingAttack game None in
                    mkResult
                      (mkState (<[gameId := game]> (games st))
                         (timers st ++ [later]))
                      [anim] None
              end
          end
      end
  end.

(** The handler of [leave_game]. *)
Definition leave_game (st : State) (gameId playerId : string) : Result :=
  match games st !! gameId with
  | None => mkResult st [] None
  | Some game =>
      let game :=
        set_players game
          (List.filter (fun p => bool_decide (player_id p <> playerId))
             (players game)) in
      match players game with
      | otherPlayer :: _ =>
          let line :=
            or_else (player_name <$> find_id playerId (players game)) "Opponent"
            +:+ " left the game." in
          broadcastAvailableGames
            (mkState (<[gameId := game]> (games st))
               (timers st ++ [mkTimer 5000 (DeleteGame gameId)]))
            [ToRoom gameId
               (GameStateUpdate
                  (set_gameLog
                     (set_winner (set_phase game game_over)
                        (Some (player_id otherPlayer)))
                     (line :: gameLog game)))]
      | [] =>
          broadcastAvailableGames
            (mkState (delete gameId (games st)) (timers st)) []
      end
  end.

Definition run_action (a : TimerAction) (g : gmap string Game)
  : gmap string Game :=
  match a with
  | DeleteGame gameId => delete gameId g
  | EmitGameState _ | EmitSecondAnimation _ => g
  end.

Definition fire_timer (st : State) (n : nat) : State :=
  match timers st !! n with
  | Some t => mkState (run_action (action t) (games st)) (delete n (timers st))
  | None => st
  end.

Inductive Request :=
  | CreateGame (playerId playerName r36 : string)
  | JoinGame (gameId playerId playerName : string)
  | GetAvailableGames
  | SubmitAttack (gameId playerId attackType : string)
  | SubmitDefense (gameId playerId defenseType : string) (rnd : Q)
  | LeaveGame (gameId playerId : string)
  | TimerFires (n : nat).

Definition handle (st : State) (req : Request) : Result :=
  match req with
  | CreateGame p n r => create_game st p n r
  | JoinGame g p n => join_game st g p n
  | GetAvailableGames => get_available_games st
  | SubmitAttack g p a => submit_attack st g p a
  | SubmitDefense g p d r => submit_defense st g p d r
  | LeaveGame g p => leave_game st g p
  | TimerFires n => mkResult (fire_timer st n) [] None
  end.

Inductive reachable : State -> Prop :=
  | reachable_init : reachable init
  | reachable_step st req :
      reachable st -> reachable (state_after (handle st req)).

(** A run of requests none of which throws: [None] as soon as one does. *)
Fixpoint run (st : State) (reqs : list Request) : option State :=
  match reqs with
  | [] => Some st
  | req :: reqs' =>
      let r := handle st req in
      match thrown r with
      | Some _ => None
      | None => run (state_after r) reqs'
      end
  end.

(** No stored session holds more than two players. *)
Definition two_at_most (m : gmap string Game) : Prop :=
  map_Forall (fun _ g => (length (players g) <= 2)%nat) m.

(** *** The shape of the stored sessions *)

Definition player_ok (p : Player) : Prop :=
  attack p = 15%Z /\ defense p = 5%Z /\ maxHealth p = 100%Z
  /\ (0 <= health p <= 100)%Z.

(** What holds of the session stored under [key]: one or two players with
    the stats of their creation, a phase other than [battle], and, while the
    session waits, the host alone, no turn holder, no buffered attack and no
    winner. *)
Definition session_inv (key : string) (g : Game) : Prop :=
  game_id g = key
  /\ Forall player_ok (players g)
  /\ (1 <= length (players g) <= 2)%nat
  /\ phase g <> battle
  /\ (phase g = waiting ->
      length (players g) = 1%nat /\ currentTurn g = None
      /\ pendingAttack g = None /\ winner g = None).

(** The state after a sequence of requests, throws included. *)
Definition steps (st : State) (reqs : list Request) : State :=
  fold_left (fun st req => state_after (handle st req)) reqs st.

(** What [submit_defense] may do to a player record: nothing at all when
    the id is not the submitter's; otherwise only the defense selection and
    the health may change, and a health that was not negative does not go
    up and does not go below 0. *)
Definition defended (playerId : string) (p p' : Player) : Prop :=
  player_id p' = player_id p /\ player_name p' = player_name p
  /\ attack p' = attack p /\ defense p' = defense p
  /\ maxHealth p' = maxHealth p
  /\ currentAttackType p' = currentAttackType p
  /\ (player_id p <> playerId -> p' = p)
  /\ ((0 <= health p)%Z -> (0 <= health p' <= health p)%Z).

End Alt.

(** ** Concrete sessions used in the examples *)

Module Scenario.

(** The simultaneous server after Ann created a session, and after Bob
    joined it. *)
Definition hosted : Simul.State :=
  Simul.state_after
    (Simul.handle Simul.init (Simul.CreateGame "a" "Ann" "0.abc123xyz")).

Definition paired : Simul.State :=
  Simul.state_after (Simul.handle hosted (Simul.JoinGame "ABC123" "b" "Bob")).

(** A session of the simultaneous server in which both players, four health
    points each, have chosen their moves. *)
Definition lastStand : Simul.Game :=
  Simul.mkGame "ABC123"
    [Simul.mkPlayer "a" "Ann" 4 100 15 5 (Some "rock") (Some "paper") true;
     Simul.mkPlayer "b" "Bob" 4 100 15 5 (Some "paper") (Some "rock") true]
    (Some "b") selection None [].

(** The alternating server after Ann created a session, after Bob joined
    it, and after Ann attacked with rock. *)
Definition altHosted : Alt.State :=
  Alt.state_after (Alt.handle Alt.init (Alt.CreateGame "a" "Ann" "0.abc123xyz")).

Definition altPaired : Alt.State :=
  Alt.state_after (Alt.handle altHosted (Alt.JoinGame "ABC123" "b" "Bob")).

Definition altAttacked : Alt.State :=
  Alt.state_after (Alt.handle altPaired (Alt.SubmitAttack "ABC123" "a" "rock")).

(** One exchange in which Ann hits Bob for 29 and Bob hits Ann for 5. *)
Definition exchange : list Alt.Request :=
  [Alt.SubmitAttack "ABC123" "a" "rock";
   Alt.SubmitDefense "ABC123" "b" "scissors" (4 # 5);
   Alt.SubmitAttack "ABC123" "b" "rock";
   Alt.SubmitDefense "ABC123" "a" "paper" 0].

(** Ann beats Bob, Bob leaves, and Cy joins the session before the removal
    that [leave_game] scheduled has run. *)
Definition rejoinAfterGameOver : list Alt.Request :=
  [Alt.CreateGame "a" "Ann" "0.abc123xyz"; Alt.JoinGame "ABC123" "b" "Bob"]
  ++ exchange ++ exchange ++ exchange
  ++ [Alt.SubmitAttack "ABC123" "a" "rock";
      Alt.SubmitDefense "ABC123" "b" "scissors" (4 # 5);
      Alt.LeaveGame "ABC123" "b";
      Alt.JoinGame "ABC123" "c" "Cy"].

(** One round of the simultaneous server in which Ann hits Bob for 29 and
    Bob hits Ann for 5. *)
Definition round : list Simul.Request :=
  [Simul.SubmitMove "ABC123" "a" "rock" "paper" 0 0;
   Simul.SubmitMove "ABC123" "b" "rock" "scissors" (4 # 5) 0].

(** The simultaneous server after Ann has beaten Bob in four rounds. *)
Definition finished : Simul.State :=
  Simul.steps paired (round ++ round ++ round ++ round).

(** The alternating server after Bob joined Ann and left again, and after
    Ann attacked and left while Bob was to defend. *)
Definition altAlone : Alt.State :=
  Alt.steps altPaired [Alt.LeaveGame "ABC123" "b"].

Definition altAttackerGone : Alt.State :=
  Alt.steps altAttacked [Alt.LeaveGame "ABC123" "a"].

(** Ann attacks with rock and answers her own attack with scissors: she
    hits herself for 29. *)
Definition selfHit : list Alt.Request :=
  [Alt.SubmitAttack "ABC123" "a" "rock";
   Alt.SubmitDefense "ABC123" "a" "scissors" (4 # 5)].

(** The alternating server after Ann has hit herself three times and has
    attacked a fourth time. *)
Definition altSelfHit : Alt.State :=
  Alt.steps altPaired
    (selfHit ++ selfHit ++ selfHit ++ [Alt.SubmitAttack "ABC123" "a" "rock"]).

End Scenario.

(** ** Properties of the specification, as it words them *)

(** What the specification expects of a session after a resolution that
    did not end the game: every player's two move fields are back to none,
    the phase is [selection], and the first player holds the turn. *)
Definition round_reset_alt (g : Alt.Game) : Prop :=
  Forall (fun p => Alt.currentAttackType p = None
                   /\ Alt.currentDefenseType p = None) (Alt.players g)
  /\ Alt.phase g = selection
  /\ Alt.currentTurn g = Alt.player_id <$> head (Alt.players g).

Definition round_reset_simul (g : Simul.Game) : Prop :=
  Forall (fun p => Simul.currentAttackType p = None
                   /\ Simul.currentDefenseType p = None) (Simul.players g)
  /\ Simul.phase g = selection
  /\ Simul.currentTurn g = Simul.player_id <$> head (Simul.players g).

(** What the specification expects of the stored session when a player
    leaves and an opponent stays: the opponent is its winner and its phase
    is [game_over]. *)
Definition leave_declares_winner_alt
    (st : Alt.State) (gameId playerId : string) : Prop :=
  forall g other,
    Alt.games st !! gameId = Some g ->
    Alt.find_other playerId (Alt.players g) = Some other ->
    exists g',
      Alt.games (Alt.state_after (Alt.leave_game st gameId playerId)) !! gameId
      = Some g'
      /\ Alt.winner g' = Some (Alt.player_id other)
      /\ Alt.phase g' = game_over.

(** What the specification expects of the registry when the only player of
    a session leaves: the session is gone as soon as the handler returns. *)
Definition leave_removes_at_once_simul
    (st : Simul.State) (gameId playerId : string) : Prop :=
  forall g,
    Simul.games st !! gameId = Some g ->
    Simul.find_other playerId (Simul.players g) = None ->
    Simul.games (Simul.state_after (Simul.leave_game st gameId playerId))
      !! gameId = None.

(** ** Theorems on the shared helpers *)

(** C1. The resolver is total on the nine move pairs and follows the cyclic
    dominance table: equal moves give tier normal with multiplier 1.0; rock
    over scissors, scissors over paper and paper over rock give tier super
    with multiplier 2.0; each remaining pair gives tier not with multiplier
    0.5. *)
Theorem getEffectivenessMultiplier_cyclic :
  (forall a : Move,
     getEffectivenessMultiplier (Some (moveName a)) (Some (moveName a))
     = mkEffectiveness 1 "normal")
  /\ getEffectivenessMultiplier (Some "rock") (Some "scissors")
     = mkEffectiveness 2 "super"
  /\ getEffectivenessMultiplier (Some "scissors") (Some "paper")
     = mkEffectiveness 2 "super"
  /\ getEffectivenessMultiplier (Some "paper") (Some "rock")
     = mkEffectiveness 2 "super"
  /\ (forall a d : Move,
        a <> d -> beats a d = false ->
        getEffectivenessMultiplier (Some (moveName a)) (Some (moveName d))
        = mkEffectiveness (1 # 2) "not")
  /\ (forall a d : Move,
        beats a d = true ->
        getEffectivenessMultiplier (Some (moveName a)) (Some (moveName d))
        = mkEffectiveness 2 "super").
Proof.
  repeat split.
  - intros []; reflexivity.
  - intros [] [] Hne Hb; try reflexivity; try discriminate Hb;
      exfalso; apply Hne; reflexivity.
  - intros [] [] Hb; try reflexivity; discriminate Hb.
Qed.

Lemma getEffectivenessMultiplier_cyclic_witness :
  rock <> paper /\ beats rock paper = false
  /\ getEffectivenessMultiplier (Some "rock") (Some "paper")
     = mkEffectiveness (1 # 2) "not"
  /\ beats scissors paper = true
  /\ getEffectivenessMultiplier (Some "scissors") (Some "paper")
     = mkEffectiveness 2 "super".
Proof.
  destruct getEffectivenessMultiplier_cyclic as (_ & _ & _ & _ & Hnot & Hsuper).
  split; [discriminate |]. split; [reflexivity |].
  split; [exact (Hnot rock paper ltac:(discriminate) eq_refl) |].
  split; [reflexivity |].
  exact (Hsuper scissors paper eq_refl).
Defined.

Lemma jitter_range (rnd : Q) :
  (0 <= rnd)%Q -> (rnd < 1)%Q -> (0 <= jitter rnd < 5)%Z.
Proof.
  destruct rnd as [n d]. unfold Qle, Qlt, jitter. simpl.
  intros H0 H1.
  assert (Hd : (0 < Z.pos (d * 1))%Z) by lia.
  replace (Z.pos (d * 1)) with (Z.pos d) in * by lia.
  split.
  - apply Z.div_pos; lia.
  - apply Z.div_lt_upper_bound; lia.
Qed.




(** The damage of the opening exchange of the specification's scenario:
    attack 15, super effective, defense 5, jitter 0. *)
Example damage_opening : damage 15 SUPER_EFFECTIVE 5 0 = 25%Z.
Proof. reflexivity. Qed.

Example damage_deeply_negative : damage 15 NOT_EFFECTIVE 1000 (4 # 5) = 5%Z.
Proof. reflexivity. Qed.

(** ** The simultaneous variant: facts *)

Module SimulFacts.
Import Simul.

Lemma find_id_None (playerId : string) (l : list Player) :
  find_id playerId l = None <-> Forall (fun p => player_id p <> playerId) l.
Proof.
  unfold find_id. induction l as [|p l IH]; simpl.
  - split; [constructor | reflexivity].
  - case_bool_decide as Hp.
    + split; [discriminate |]. intros HF. inversion HF; subst. contradiction.
    + rewrite IH. split.
      * intros HF. constructor; assumption.
      * intros HF. inversion HF; assumption.
Qed.

Lemma update_found_length (playerId : string) (u : Player -> Player)
    (l : list Player) :
  length (update_found playerId u l) = length l.
Proof.
  induction l as [|p l IH]; simpl; [reflexivity |].
  case_bool_decide; simpl; congruence.
Qed.

(** With two players in the session [processBattle] does not throw, keeps
    the two players in place with their ids, and writes the two healths. *)
Lemma processBattle_players (game : Game) (player1 player2 : Player)
    (rest : list Player) (rnd1 rnd2 : Q) :
  players game = player1 :: player2 :: rest ->
  battle_thrown (processBattle game rnd1 rnd2) = None
  /\ exists p1' p2',
       players (battle_game (processBattle game rnd1 rnd2))
       = p1' :: p2' :: rest
       /\ player_id p1' = player_id player1
       /\ player_id p2' = player_id player2
       /\ health p1' = health1_after player1 player2 rnd2
       /\ health p2' = health2_after player1 player2 rnd1.
Proof.
  intros Hp. unfold processBattle. rewrite Hp. cbv zeta.
  fold (health1_after player1 player2 rnd2).
  fold (health2_after player1 player2 rnd1).
  destruct (bool_decide _ || bool_decide _); simpl.
  - split; [reflexivity |]. eexists _, _. split; [reflexivity |]. simpl. auto.
  - split; [reflexivity |]. eexists _, _. split; [reflexivity |]. simpl. auto.
Qed.

(** The verdict of [processBattle] in terms of the healths it wrote. *)
Lemma processBattle_verdict (game : Game) (player1 player2 : Player)
    (rest : list Player) (rnd1 rnd2 : Q) :
  players game = player1 :: player2 :: rest ->
  let h1 := health1_after player1 player2 rnd2 in
  let h2 := health2_after player1 player2 rnd1 in
  let g' := battle_game (processBattle game rnd1 rnd2) in
  ((h1 <= 0)%Z -> (h2 <= 0)%Z -> winner g' = None /\ phase g' = game_over)
  /\ ((h1 <= 0)%Z -> (0 < h2)%Z ->
      winner g' = Some (player_id player2) /\ phase g' = game_over)
  /\ ((0 < h1)%Z -> (h2 <= 0)%Z ->
      winner g' = Some (player_id player1) /\ phase g' = game_over)
  /\ ((0 < h1)%Z -> (0 < h2)%Z ->
      winner g' = winner game /\ phase g' = selection
      /\ currentTurn g' = Some (player_id player1)
      /\ players g'
         = set_moves (set_health player1 h1) None None false
           :: set_moves (set_health player2 h2) None None false :: rest).
Proof.
  intros Hp h1 h2 g'. subst g'. unfold processBattle. rewrite Hp. cbv zeta.
  fold (health1_after player1 player2 rnd2).
  fold (health2_after player1 player2 rnd1).
  fold h1. fold h2. simpl.
  repeat split; intros;
    repeat (case_bool_decide; simpl; try lia); reflexivity.
Qed.

(** A [processBattle] that does not end the game left both players
    standing, and then it reset the round. *)
Lemma processBattle_nonterminal (game : Game) (player1 player2 : Player)
    (rest : list Player) (rnd1 rnd2 : Q) :
  players game = player1 :: player2 :: rest ->
  let g' := battle_game (processBattle game rnd1 rnd2) in
  phase g' <> game_over ->
  phase g' = selection
  /\ currentTurn g' = Some (player_id player1)
  /\ players g'
     = set_moves (set_health player1 (health1_after player1 player2 rnd2))
         None None false
       :: set_moves (set_health player2 (health2_after player1 player2 rnd1))
            None None false
       :: rest.
Proof.
  intros Hp g' Hph. subst g'.
  destruct (processBattle_verdict game player1 player2 rest rnd1 rnd2 Hp)
    as (Hdraw & Hw2 & Hw1 & Hnext).
  cbv zeta in *.
  destruct (Z_le_gt_dec (health1_after player1 player2 rnd2) 0) as [H1|H1],
           (Z_le_gt_dec (health2_after player1 player2 rnd1) 0) as [H2|H2].
  - destruct Hph. apply Hdraw; assumption.
  - destruct Hph. apply Hw2; [assumption | lia].
  - destruct Hph. apply Hw1; [lia | assumption].
  - destruct Hnext as (_ & Hsel & Hturn & Hps); [lia | lia |]. auto.
Qed.

(** A submission that names an unknown session, a player who is not in the
    session, or a player who does not hold the turn is answered with an
    error on the requester's socket and changes nothing. *)
Lemma submit_move_rejected (st : State)
    (gameId playerId attackType defenseType : string) (rnd1 rnd2 : Q) :
  (games st !! gameId = None
   \/ exists game, games st !! gameId = Some game
        /\ (Forall (fun p => player_id p <> playerId) (players game)
            \/ currentTurn game <> Some playerId)) ->
  let r := submit_move st gameId playerId attackType defenseType rnd1 rnd2 in
  state_after r = st /\ thrown r = None
  /\ exists message,
       emitted r = [ToSocket (ErrorMsg message)]
       /\ (message = "Game not found" \/ message = "Player not found in game"
           \/ message = "Not your turn").
Proof.
  intros H r. subst r. unfold submit_move.
  destruct H as [Hn | (game & Hg & H)].
  - rewrite Hn. simpl. eauto 6.
  - rewrite Hg. destruct (find_id playerId (players game)) as [player|] eqn:Hf.
    + destruct H as [HF | Ht].
      * apply find_id_None in HF. congruence.
      * rewrite bool_decide_eq_true_2 by exact Ht. simpl. eauto 7.
    + simpl. eauto 7.
Qed.

(** A join on a session that has two players or more is answered with
    "Game is full" and changes nothing. *)
Lemma join_game_full (st : State) (gameId playerId playerName : string)
    (game : Game) :
  games st !! gameId = Some game ->
  (2 <= length (players game))%nat ->
  join_game st gameId playerId playerName
  = mkResult st [ToSocket (ErrorMsg "Game is full")] None.
Proof.
  intros Hg Hlen. unfold join_game. rewrite Hg.
  rewrite bool_decide_eq_true_2 by exact Hlen. reflexivity.
Qed.

Lemma processBattle_length (game : Game) (rnd1 rnd2 : Q) :
  length (players (battle_game (processBattle game rnd1 rnd2)))
  = length (players game).
Proof.
  unfold processBattle.
  destruct (players game) as [|p1 [|p2 rest]] eqn:Hp; simpl;
    try (rewrite Hp; reflexivity).
  destruct (bool_decide _ || bool_decide _); reflexivity.
Qed.

Lemma handle_two_at_most (st : State) (req : Request) :
  two_at_most (games st) -> two_at_most (games (state_after (handle st req))).
Proof.
  unfold two_at_most. intros Hinv.
  destruct req as [p n r | g p n | | g p a d r1 r2 | g p | n]; simpl.
  - apply map_Forall_insert_2; [simpl; lia | exact Hinv].
  - unfold join_game. destruct (games st !! g) as [game|] eqn:Hg; [| exact Hinv].
    case_bool_decide as Hlen; [exact Hinv |]. simpl.
    apply map_Forall_insert_2; [| exact Hinv].
    simpl. rewrite length_app. simpl. lia.
  - unfold get_available_games. destruct (availableGames st); exact Hinv.
  - unfold submit_move. destruct (games st !! g) as [game|] eqn:Hg; [| exact Hinv].
    pose proof (Hinv _ _ Hg) as Hlen. simpl in Hlen.
    destruct (find_id p (players game)); [| exact Hinv].
    destruct (bool_decide (currentTurn game <> Some p)); [exact Hinv |].
    destruct (forallb _ _); simpl.
    + apply map_Forall_insert_2; [| exact Hinv].
      rewrite processBattle_length. simpl. rewrite update_found_length. exact Hlen.
    + apply map_Forall_insert_2; [| exact Hinv].
      simpl. rewrite update_found_length. exact Hlen.
  - unfold leave_game. destruct (games st !! g); exact Hinv.
  - unfold fire_timer. destruct (timers st !! n) as [t|]; [| exact Hinv]. simpl.
    destruct (action t); simpl; try exact Hinv.
    apply map_Forall_delete. exact Hinv.
Qed.

Lemma reachable_two_at_most (st : State) :
  reachable st -> two_at_most (games st).
Proof.
  induction 1 as [| st req _ IH].
  - apply map_Forall_empty.
  - apply handle_two_at_most. exact IH.
Qed.

(** [leave_game] on a stored session: the registry is left as it was (the
    leaver stays in [players]), the removal of the session is scheduled
    5000 ms later, and the room is told only when a player with another id
    is in the session. *)
Lemma leave_game_effect (st : State) (gameId playerId : string) (game : Game) :
  games st !! gameId = Some game ->
  let r := leave_game st gameId playerId in
  state_after r
  = mkState (games st) (timers st ++ [mkTimer 5000 (DeleteGame gameId)])
  /\ thrown r = None
  /\ (forall other, find_other playerId (players game) = Some other ->
      exists who,
        emitted r
        = [ToRoom gameId
             (GameStateUpdate
                (mkGame (game_id game) (players game) (currentTurn game)
                   game_over (Some (player_id other))
                   ((who +:+ " left the game.") :: gameLog game)))])
  /\ (find_other playerId (players game) = None -> emitted r = []).
Proof.
  intros Hg r. subst r. unfold leave_game. rewrite Hg. simpl.
  repeat split.
  - intros other Ho. rewrite Ho. eexists. reflexivity.
  - intros Ho. rewrite Ho. reflexivity.
Qed.

Lemma fire_scheduled_delete (m : gmap string Game) (ts : list Timer)
    (gameId : string) (d : Z) :
  fire_timer (mkState m (ts ++ [mkTimer d (DeleteGame gameId)])) (length ts)
  = mkState (delete gameId m) ts.
Proof.
  unfold fire_timer. simpl.
  rewrite lookup_app_r by lia. rewrite Nat.sub_diag. simpl.
  f_equal. induction ts as [|t ts IH]; simpl; [reflexivity |].
  f_equal. exact IH.
Qed.

(** *** The winner is set only on a finished game *)

Lemma update_found_health (playerId : string) (u : Player -> Player)
    (l : list Player) :
  (forall p, health (u p) = health p) ->
  map health (update_found playerId u l) = map health l.
Proof.
  intros Hu. induction l as [|p l IH]; simpl; [reflexivity |].
  case_bool_decide; simpl; [rewrite Hu | rewrite IH]; reflexivity.
Qed.

Lemma processBattle_winner_inv (game : Game) (rnd1 rnd2 : Q) :
  winner_inv game -> winner_inv (battle_game (processBattle game rnd1 rnd2)).
Proof.
  intros Hinv.
  destruct (players game) as [|p1 [|p2 rest]] eqn:Hp;
    try (unfold processBattle; rewrite Hp; exact Hinv).
  pose proof (processBattle_players game p1 p2 rest rnd1 rnd2 Hp)
    as (_ & p1' & p2' & Hps & _ & _ & Hh1 & Hh2).
  pose proof (processBattle_verdict game p1 p2 rest rnd1 rnd2 Hp)
    as (Hdraw & Hw2 & Hw1 & Hnext).
  cbv zeta in *.
  set (h1 := health1_after p1 p2 rnd2) in *.
  set (h2 := health2_after p1 p2 rnd1) in *.
  assert (Hover : phase (battle_game (processBattle game rnd1 rnd2)) = game_over ->
                  ((h1 <= 0)%Z \/ (h2 <= 0)%Z) ->
                  winner_inv (battle_game (processBattle game rnd1 rnd2))).
  { intros Hph Hdown _. split; [exact Hph |].
    exists h1, h2, (map health rest). rewrite Hps. simpl.
    rewrite Hh1, Hh2. split; [reflexivity | exact Hdown]. }
  destruct (Z_le_gt_dec h1 0) as [H1 | H1], (Z_le_gt_dec h2 0) as [H2 | H2].
  - apply Hover; [apply Hdraw; assumption | left; assumption].
  - apply Hover; [apply Hw2; [assumption | lia] | left; assumption].
  - apply Hover; [apply Hw1; [lia | assumption] | right; assumption].
  - destruct Hnext as (Hw & _); [lia | lia |].
    intros Hwin. rewrite Hw in Hwin.
    destruct (Hinv Hwin) as (_ & o1 & o2 & os & Hmap & Hdown).
    rewrite Hp in Hmap. simpl in Hmap. injection Hmap as <- <- _.
    exfalso. subst h1 h2. unfold health1_after, health2_after, damage in *. lia.
Qed.

Lemma handle_winner_inv (st : State) (req : Request) :
  map_Forall (fun _ g => winner_inv g) (games st) ->
  map_Forall (fun _ g => winner_inv g) (games (state_after (handle st req))).
Proof.
  intros Hinv.
  destruct req as [p n r | g p n | | g p a d r1 r2 | g p | n]; simpl.
  - apply map_Forall_insert_2; [| exact Hinv]. intros Hw. simpl in Hw. congruence.
  - unfold join_game. destruct (games st !! g) as [game|] eqn:Hg; [| exact Hinv].
    case_bool_decide as Hlen; [exact Hinv |]. simpl.
    apply map_Forall_insert_2; [| exact Hinv].
    intros Hw. simpl in Hw. exfalso.
    destruct (Hinv _ _ Hg Hw) as (_ & h1 & h2 & hs & Hmap & _).
    apply (f_equal length) in Hmap. rewrite length_map in Hmap.
    simpl in Hmap. lia.
  - unfold get_available_games. destruct (availableGames st); exact Hinv.
  - unfold submit_move. destruct (games st !! g) as [game|] eqn:Hg; [| exact Hinv].
    pose proof (Hinv _ _ Hg) as Hgame. simpl in Hgame.
    destruct (find_id p (players game)); [| exact Hinv].
    destruct (bool_decide (currentTurn game <> Some p)); [exact Hinv |].
    assert (Hupd : forall t l,
               winner_inv
                 (mkGame (game_id game)
                    (update_found p
                       (fun q => set_moves q (Some a) (Some d) true)
                       (players game)) t (phase game) (winner game) l)).
    { intros t l Hw. simpl in *. destruct (Hgame Hw) as (Hph & Hh).
      split; [exact Hph |]. rewrite update_found_health by reflexivity.
      exact Hh. }
    destruct (forallb _ _); simpl.
    + apply map_Forall_insert_2; [| exact Hinv].
      apply processBattle_winner_inv. apply Hupd.
    + apply map_Forall_insert_2; [| exact Hinv]. apply Hupd.
  - unfold leave_game. destruct (games st !! g); exact Hinv.
  - unfold fire_timer. destruct (timers st !! n) as [t|]; [| exact Hinv]. simpl.
    destruct (action t); simpl; try exact Hinv.
    apply map_Forall_delete. exact Hinv.
Qed.

(** In the simultaneous server a stored session has a winner only when its
    phase is [game_over]. *)
Lemma reachable_winner_game_over (st : State) (gameId : string) (g : Game) :
  reachable st -> games st !! gameId = Some g ->
  winner g <> None -> phase g = game_over.
Proof.
  intros Hr Hg Hw.
  assert (Hall : map_Forall (fun _ g => winner_inv g) (games st)).
  { clear Hg Hw. induction Hr as [| st req _ IH].
    - apply map_Forall_empty.
    - apply handle_winner_inv. exact IH. }
  exact (proj1 (Hall _ _ Hg Hw)).
Qed.

End SimulFacts.

(** ** The alternating variant: facts *)

Module AltFacts.
Import Alt.


Lemma find_id_Some (playerId : string) (l : list Player) (p : Player) :
  find_id playerId l = Some p -> player_id p = playerId.
Proof.
  unfold find_id. intros Hf. apply find_some in Hf as [_ Hp].
  apply bool_decide_eq_true in Hp. exact Hp.
Qed.

Lemma alt_update_found_length (playerId : string) (u : Player -> Player)
    (l : list Player) :
  length (update_found playerId u l) = length l.
Proof.
  induction l as [|p l IH]; simpl; [reflexivity |].
  destruct (bool_decide (player_id p = playerId)); simpl; congruence.
Qed.


Lemma alt_join_game_full (st : State) (gameId playerId playerName : string)
    (game : Game) :
  games st !! gameId = Some game ->
  (2 <= length (players game))%nat ->
  join_game st gameId playerId playerName
  = mkResult st [ToSocket (ErrorMsg "Game is full")] None.
Proof.
  intros Hg Hlen. unfold join_game. rewrite Hg.
  rewrite bool_decide_eq_true_2 by exact Hlen. reflexivity.
Qed.

Lemma broadcastAvailableGames_state (st : State) (sent : list Emit) :
  state_after (broadcastAvailableGames st sent) = st.
Proof.
  unfold broadcastAvailableGames. destruct (availableGames _); reflexivity.
Qed.

Lemma alt_handle_two_at_most (st : State) (req : Request) :
  two_at_most (games st) -> two_at_most (games (state_after (handle st req))).
Proof.
  unfold two_at_most. intros Hinv.
  destruct req as [p n r | g p n | | g p a | g p d r | g p | n]; simpl.
  - unfold create_game. rewrite broadcastAvailableGames_state. simpl.
    apply map_Forall_insert_2; [simpl; lia | exact Hinv].
  - unfold join_game. destruct (games st !! g) as [game|] eqn:Hg; [| exact Hinv].
    case_bool_decide as Hlen; [exact Hinv |].
    rewrite broadcastAvailableGames_state. simpl.
    apply map_Forall_insert_2; [| exact Hinv].
    simpl. rewrite length_app. simpl. lia.
  - unfold get_available_games. destruct (availableGames _); exact Hinv.
  - unfold submit_attack. destruct (games st !! g) as [game|] eqn:Hg; [| exact Hinv].
    pose proof (Hinv _ _ Hg) as Hlen. simpl in Hlen.
    destruct (find_id p (players game)); [| exact Hinv].
    destruct (bool_decide _ || bool_decide _); [exact Hinv |].
    cbv zeta. destruct (find_other p _); simpl;
      (apply map_Forall_insert_2; [| exact Hinv]);
      simpl; rewrite alt_update_found_length; exact Hlen.
  - unfold submit_defense. destruct (games st !! g) as [game|] eqn:Hg; [| exact Hinv].
    pose proof (Hinv _ _ Hg) as Hlen. simpl in Hlen.
    destruct (find_id p (players game)); [| exact Hinv].
    destruct (pendingAttack game) as [pending|]; [| exact Hinv].
    cbv zeta. destruct (find_id (pending_playerId pending) _);
      [destruct (bool_decide _) |]; simpl;
      (apply map_Forall_insert_2; [| exact Hinv]);
      simpl; rewrite ?alt_update_found_length; exact Hlen.
  - unfold leave_game. destruct (games st !! g) as [game|] eqn:Hg; [| exact Hinv].
    pose proof (Hinv _ _ Hg) as Hlen. simpl in Hlen.
    cbv zeta. simpl.
    destruct (List.filter _ _) as [|o rest] eqn:Hf;
      rewrite broadcastAvailableGames_state; simpl.
    + apply map_Forall_delete. exact Hinv.
    + apply map_Forall_insert_2; [| exact Hinv]. simpl.
      pose proof (filter_length_le
                    (fun p0 => bool_decide (player_id p0 <> p)) (players game)) as Hle.
      rewrite Hf in Hle. simpl in Hle. lia.
  - unfold fire_timer. destruct (timers st !! n) as [t|]; [| exact Hinv]. simpl.
    destruct (action t); simpl; try exact Hinv.
    apply map_Forall_delete. exact Hinv.
Qed.

Lemma alt_reachable_two_at_most (st : State) :
  reachable st -> two_at_most (games st).
Proof.
  induction 1 as [| st req _ IH].
  - apply map_Forall_empty.
  - apply alt_handle_two_at_most. exact IH.
Qed.

(** A defense submitted by a member of the session while no attack is
    buffered: the handler reads [game.pendingAttack.playerId] on [null] and
    the exception leaves the handler; nothing is sent to the requester. *)
Lemma submit_defense_no_pending (st : State)
    (gameId playerId defenseType : string) (rnd : Q)
    (game : Game) (defender : Player) :
  games st !! gameId = Some game ->
  find_id playerId (players game) = Some defender ->
  pendingAttack game = None ->
  submit_defense st gameId playerId defenseType rnd
  = mkResult st [] (Some "TypeError").
Proof.
  intros Hg Hf Hp. unfold submit_defense. rewrite Hg, Hf, Hp. reflexivity.
Qed.

(** A resolution that leaves the defender alive. *)
Lemma submit_defense_nonterminal (st : State)
    (gameId playerId defenseType : string) (rnd : Q)
    (game : Game) (defender attacker : Player) (pending : PendingAttack) :
  games st !! gameId = Some game ->
  find_id playerId (players game) = Some defender ->
  pendingAttack game = Some pending ->
  find_id (pending_playerId pending) (players game) = Some attacker ->
  (0 < health defender
       - damage (attack attacker)
           (multiplier
              (getEffectivenessMultiplier (Some (pending_attackType pending))
                 (Some defenseType)))
           (defense defender) rnd)%Z ->
  let r := submit_defense st gameId playerId defenseType rnd in
  thrown r = None
  /\ exists g', games (state_after r) !! gameId = Some g'
       /\ pendingAttack g' = None
       /\ currentTurn g' = Some playerId
       /\ currentTurnType g' = ATTACK
       /\ phase g' = phase game
       /\ winner g' = winner game.
Proof.
  intros Hg Hf Hp Ha Hpos r. subst r.
  unfold submit_defense. rewrite Hg, Hf, Hp. cbv zeta. simpl. rewrite Ha.
  rewrite bool_decide_eq_false_2 by lia. simpl.
  split; [reflexivity |]. eexists. split; [apply lookup_insert_eq |].
  simpl. rewrite (find_id_Some _ _ _ Hf). auto.
Qed.

Lemma find_id_filter_other (playerId : string) (l : list Player) :
  find_id playerId
    (List.filter (fun p => bool_decide (player_id p <> playerId)) l) = None.
Proof.
  unfold find_id. induction l as [|p l IH]; simpl; [reflexivity |].
  destruct (bool_decide (player_id p <> playerId)) eqn:Hp; [| exact IH].
  simpl. apply bool_decide_eq_true in Hp.
  rewrite bool_decide_eq_false_2 by exact Hp. exact IH.
Qed.

(** [leave_game] when somebody stays behind: the leaver is taken out of
    [players], the stored phase, winner and log stay as they were, the room
    gets a copy of the session marked as over, and the removal of the
    session is scheduled 5000 ms later. *)
Lemma leave_game_remaining (st : State) (gameId playerId : string)
    (game : Game) (other : Player) (rest : list Player) :
  games st !! gameId = Some game ->
  List.filter (fun p => bool_decide (player_id p <> playerId)) (players game)
  = other :: rest ->
  let r := leave_game st gameId playerId in
  state_after r
  = mkState (<[gameId := set_players game (other :: rest)]> (games st))
      (timers st ++ [mkTimer 5000 (DeleteGame gameId)])
  /\ exists more,
       emitted r
       = ToRoom gameId
           (GameStateUpdate
              (mkGame (game_id game) (other :: rest) (currentTurn game)
                 (currentTurnType game) (pendingAttack game) game_over
                 (Some (player_id other))
                 ("Opponent left the game." :: gameLog game))) :: more.
Proof.
  intros Hg Hf r. subst r. unfold leave_game. rewrite Hg. cbv zeta. simpl.
  rewrite find_id_filter_other. rewrite Hf. simpl.
  unfold broadcastAvailableGames. destruct (availableGames _); simpl;
    (split; [reflexivity |]); eexists; reflexivity.
Qed.

(** [leave_game] when nobody stays behind: the session is deleted at once
    and no callback is scheduled. *)
Lemma leave_game_last (st : State) (gameId playerId : string) (game : Game) :
  games st !! gameId = Some game ->
  List.filter (fun p => bool_decide (player_id p <> playerId)) (players game)
  = [] ->
  state_after (leave_game st gameId playerId)
  = mkState (delete gameId (games st)) (timers st).
Proof.
  intros Hg Hf. unfold leave_game. rewrite Hg. cbv zeta. simpl. rewrite Hf.
  apply broadcastAvailableGames_state.
Qed.

(** The callback scheduled last, once it runs, deletes the session; running
    a deletion on a registry without the session changes nothing. *)
Lemma alt_fire_scheduled_delete (m : gmap string Game) (ts : list Timer)
    (gameId : string) (d : Z) :
  fire_timer (mkState m (ts ++ [mkTimer d (DeleteGame gameId)])) (length ts)
  = mkState (delete gameId m) ts.
Proof.
  unfold fire_timer. simpl.
  rewrite lookup_app_r by lia. rewrite Nat.sub_diag. simpl.
  f_equal. induction ts as [|t ts IH]; simpl; [reflexivity |].
  f_equal. exact IH.
Qed.

Lemma delete_game_idempotent (m : gmap string Game) (gameId : string) :
  run_action (DeleteGame gameId) (run_action (DeleteGame gameId) m)
  = run_action (DeleteGame gameId) m.
Proof. simpl. apply delete_id. apply lookup_delete_eq. Qed.

(** *** Writes of the winner *)

(** After any request, a stored session with a winner is over, unless the
    session was stored with that winner before the request.  So every write
    of [winner] comes with the phase [game_over]; what can break the link
    afterwards is a later write of the phase alone. *)
Lemma winner_written_with_game_over (st : State) (req : Request)
    (gameId : string) (g' : Game) :
  games (state_after (handle st req)) !! gameId = Some g' ->
  winner g' <> None ->
  phase g' = game_over
  \/ exists g, games st !! gameId = Some g /\ winner g = winner g'.
Proof.
  intros Hg' Hw.
  destruct req as [p n r | g p n | | g p a | g p d r | g p | n]; simpl in Hg'.
  - unfold create_game in Hg'. rewrite broadcastAvailableGames_state in Hg'.
    simpl in Hg'. destruct (decide (generateGameId r = gameId)) as [<- | Hne].
    + rewrite lookup_insert_eq in Hg'. injection Hg' as <-. simpl in Hw.
      congruence.
    + rewrite lookup_insert_ne in Hg' by exact Hne. right. eauto.
  - unfold join_game in Hg'. destruct (games st !! g) as [game|] eqn:Hg;
      [| right; eauto].
    destruct (bool_decide (2 <= length (players game))%nat); [right; eauto |].
    rewrite broadcastAvailableGames_state in Hg'. simpl in Hg'.
    destruct (decide (g = gameId)) as [<- | Hne].
    + rewrite lookup_insert_eq in Hg'. injection Hg' as <-. right. eauto.
    + rewrite lookup_insert_ne in Hg' by exact Hne. right. eauto.
  - unfold get_available_games in Hg'. destruct (availableGames _); right; eauto.
  - unfold submit_attack in Hg'. destruct (games st !! g) as [game|] eqn:Hg;
      [| right; eauto].
    destruct (find_id p (players game)); [| right; eauto].
    destruct (bool_decide _ || bool_decide _); [right; eauto |].
    cbv zeta in Hg'. destruct (find_other p _); simpl in Hg';
      (destruct (decide (g = gameId)) as [<- | Hne];
       [rewrite lookup_insert_eq in Hg'; injection Hg' as <-; right; eauto
       | rewrite lookup_insert_ne in Hg' by exact Hne; right; eauto]).
  - unfold submit_defense in Hg'. destruct (games st !! g) as [game|] eqn:Hg;
      [| right; eauto].
    destruct (find_id p (players game)); [| right; eauto].
    destruct (pendingAttack game) as [pending|]; [| right; eauto].
    cbv zeta in Hg'.
    destruct (find_id (pending_playerId pending) _);
      [destruct (bool_decide _) |]; simpl in Hg';
      (destruct (decide (g = gameId)) as [<- | Hne];
       [rewrite lookup_insert_eq in Hg'; injection Hg' as <-
       | rewrite lookup_insert_ne in Hg' by exact Hne; right; eauto]).
    + left. reflexivity.
    + right. eauto.
    + right. eauto.
  - unfold leave_game in Hg'. destruct (games st !! g) as [game|] eqn:Hg;
      [| right; eauto].
    cbv zeta in Hg'. simpl in Hg'.
    destruct (List.filter _ _) as [|o rest];
      rewrite broadcastAvailableGames_state in Hg'; simpl in Hg'.
    + destruct (decide (g = gameId)) as [<- | Hne].
      * rewrite lookup_delete_eq in Hg'. discriminate.
      * rewrite lookup_delete_ne in Hg' by exact Hne. right. eauto.
    + destruct (decide (g = gameId)) as [<- | Hne].
      * rewrite lookup_insert_eq in Hg'. injection Hg' as <-. right. eauto.
      * rewrite lookup_insert_ne in Hg' by exact Hne. right. eauto.
  - unfold fire_timer in Hg'. destruct (timers st !! n) as [t|]; [| right; eauto].
    simpl in Hg'. destruct (action t) as [k | k | k]; simpl in Hg';
      try (right; eauto; fail).
    destruct (decide (k = gameId)) as [<- | Hne].
    + rewrite lookup_delete_eq in Hg'. discriminate.
    + rewrite lookup_delete_ne in Hg' by exact Hne. right. eauto.
Qed.

End AltFacts.

(** ** The properties of the specification *)

(** C3. Simultaneous variant: after [processBattle] on a session of two
    players, when both resulting healths are at most 0 the winner is the
    draw marker [null] and the phase is [game_over]; when exactly one
    resulting health is at most 0 the winner is the id of the other player
    and the phase is [game_over]. *)
Theorem processBattle_draw_or_winner (game : Simul.Game)
    (player1 player2 : Simul.Player) (rest : list Simul.Player)
    (rnd1 rnd2 : Q) :
  Simul.players game = player1 :: player2 :: rest ->
  let g' := Simul.battle_game (Simul.processBattle game rnd1 rnd2) in
  exists p1' p2',
    Simul.players g' = p1' :: p2' :: rest
    /\ Simul.player_id p1' = Simul.player_id player1
    /\ Simul.player_id p2' = Simul.player_id player2
    /\ ((Simul.health p1' <= 0)%Z -> (Simul.health p2' <= 0)%Z ->
        Simul.winner g' = None /\ Simul.phase g' = game_over)
    /\ ((Simul.health p1' <= 0)%Z -> ~ (Simul.health p2' <= 0)%Z ->
        Simul.winner g' = Some (Simul.player_id p2')
        /\ Simul.phase g' = game_over)
    /\ (~ (Simul.health p1' <= 0)%Z -> (Simul.health p2' <= 0)%Z ->
        Simul.winner g' = Some (Simul.player_id p1')
        /\ Simul.phase g' = game_over).
Proof.
  intros Hp g'. subst g'.
  destruct (SimulFacts.processBattle_players game player1 player2 rest
              rnd1 rnd2 Hp) as (_ & p1' & p2' & Hps & Hid1 & Hid2 & Hh1 & Hh2).
  destruct (SimulFacts.processBattle_verdict game player1 player2 rest
              rnd1 rnd2 Hp) as (Hdraw & Hw2 & Hw1 & _).
  exists p1', p2'. rewrite Hh1, Hh2, Hid1, Hid2.
  repeat split; try assumption.
  - apply Hdraw; assumption.
  - apply Hdraw; assumption.
  - apply Hw2; [assumption | lia].
  - apply Hw2; [assumption | lia].
  - apply Hw1; [lia | assumption].
  - apply Hw1; [lia | assumption].
Qed.

Lemma processBattle_draw_or_winner_witness :
  Simul.players Scenario.lastStand
  = [Simul.mkPlayer "a" "Ann" 4 100 15 5 (Some "rock") (Some "paper") true;
     Simul.mkPlayer "b" "Bob" 4 100 15 5 (Some "paper") (Some "rock") true]
  /\ Simul.winner
       (Simul.battle_game (Simul.processBattle Scenario.lastStand 0 0)) = None
  /\ Simul.phase
       (Simul.battle_game (Simul.processBattle Scenario.lastStand 0 0))
     = game_over.
Proof.
  split; [reflexivity |].
  destruct (processBattle_draw_or_winner Scenario.lastStand _ _ [] 0 0 eq_refl)
    as (p1' & p2' & Hps & _ & _ & Hdraw & _).
  vm_compute in Hps. injection Hps as <- <-.
  apply Hdraw; vm_compute; discriminate.
Defined.

(** The scenario of the specification: Ann creates, Bob joins, both
    attack with rock and defend with scissors, jitter 0.  Each attack is
    super effective and deals 25; both healths are 75, the phase is
    [selection] and there is no winner. *)
Example simultaneous_opening_round :
  let st :=
    Simul.state_after
      (Simul.submit_move
         (Simul.state_after
            (Simul.submit_move Scenario.paired "ABC123" "a" "rock" "scissors"
               0 0))
         "ABC123" "b" "rock" "scissors" 0 0) in
  (fun g => (Simul.health <$> Simul.players g, Simul.phase g, Simul.winner g,
             Simul.currentTurn g))
    <$> (Simul.games st !! "ABC123")
  = Some ([75%Z; 75%Z], selection, None, Some "a").
Proof. vm_compute. reflexivity. Qed.



(** C5. Alternating variant: a [submit_defense] from a member of the
    session while no attack is buffered should be answered with an error and
    must not throw.  In [src/server.js] the handler throws: right after Bob
    joined, his defense finds [game.pendingAttack] to be [null], the read of
    [.playerId] raises a TypeError that leaves the handler, and no error
    message is sent to him.  The state is as it was at the throw. *)
Theorem submit_defense_without_attack_throws :
  (exists g, Alt.games Scenario.altPaired !! "ABC123" = Some g
             /\ Alt.pendingAttack g = None
             /\ Alt.find_id "b" (Alt.players g)
                = Some (Alt.newPlayer "b" "Bob"))
  /\ Alt.submit_defense Scenario.altPaired "ABC123" "b" "rock" 0
     = Alt.mkResult Scenario.altPaired [] (Some "TypeError").
Proof.
  split.
  - eexists. split; [vm_compute; reflexivity |]. split; reflexivity.
  - vm_compute. reflexivity.
Qed.

(** C6. In every reachable state of either server each stored session has
    at most two players, and a [join_game] on a session that already has two
    players (or more) is answered with "Game is full" and leaves the whole
    state, the player count included, as it was. *)
Theorem players_never_exceed_two :
  (forall (st : Simul.State) (gameId : string) (g : Simul.Game),
      Simul.reachable st -> Simul.games st !! gameId = Some g ->
      (length (Simul.players g) <= 2)%nat)
  /\ (forall (st : Simul.State) (gameId playerId playerName : string)
             (g : Simul.Game),
      Simul.games st !! gameId = Some g ->
      (2 <= length (Simul.players g))%nat ->
      Simul.join_game st gameId playerId playerName
      = Simul.mkResult st [Simul.ToSocket (Simul.ErrorMsg "Game is full")] None)
  /\ (forall (st : Alt.State) (gameId : string) (g : Alt.Game),
      Alt.reachable st -> Alt.games st !! gameId = Some g ->
      (length (Alt.players g) <= 2)%nat)
  /\ (forall (st : Alt.State) (gameId playerId playerName : string)
             (g : Alt.Game),
      Alt.games st !! gameId = Some g ->
      (2 <= length (Alt.players g))%nat ->
      Alt.join_game st gameId playerId playerName
      = Alt.mkResult st [Alt.ToSocket (Alt.ErrorMsg "Game is full")] None).
Proof.
  repeat split.
  - intros st gameId g Hr Hg.
    exact (SimulFacts.reachable_two_at_most st Hr gameId g Hg).
  - intros. eapply SimulFacts.join_game_full; eassumption.
  - intros st gameId g Hr Hg.
    exact (AltFacts.alt_reachable_two_at_most st Hr gameId g Hg).
  - intros. eapply AltFacts.alt_join_game_full; eassumption.
Qed.

Lemma players_never_exceed_two_witness :
  Simul.reachable Scenario.paired
  /\ Simul.join_game Scenario.paired "ABC123" "c" "Cy"
     = Simul.mkResult Scenario.paired
         [Simul.ToSocket (Simul.ErrorMsg "Game is full")] None
  /\ Alt.reachable Scenario.altPaired
  /\ Alt.join_game Scenario.altPaired "ABC123" "c" "Cy"
     = Alt.mkResult Scenario.altPaired
         [Alt.ToSocket (Alt.ErrorMsg "Game is full")] None.
Proof.
  destruct players_never_exceed_two as (_ & HS & _ & HA).
  split; [| split; [| split]].
  - exact (Simul.reachable_step _ (Simul.JoinGame "ABC123" "b" "Bob")
             (Simul.reachable_step _ (Simul.CreateGame "a" "Ann" "0.abc123xyz")
                Simul.reachable_init)).
  - eapply HS; [vm_compute; reflexivity | simpl; lia].
  - exact (Alt.reachable_step _ (Alt.JoinGame "ABC123" "b" "Bob")
             (Alt.reachable_step _ (Alt.CreateGame "a" "Ann" "0.abc123xyz")
                Alt.reachable_init)).
  - eapply HA; [vm_compute; reflexivity | simpl; lia].
Defined.

(** On a session of exactly two players the reset is the one the
    specification words. *)
Lemma processBattle_round_reset (game : Simul.Game)
    (player1 player2 : Simul.Player) (rnd1 rnd2 : Q) :
  Simul.players game = [player1; player2] ->
  Simul.phase (Simul.battle_game (Simul.processBattle game rnd1 rnd2))
  <> game_over ->
  round_reset_simul (Simul.battle_game (Simul.processBattle game rnd1 rnd2)).
Proof.
  intros Hp Hph.
  destruct (SimulFacts.processBattle_nonterminal game player1 player2 []
              rnd1 rnd2 Hp Hph) as (Hsel & Hturn & Hps).
  unfold round_reset_simul. rewrite Hps, Hsel, Hturn. simpl.
  repeat split. repeat constructor.
Qed.

(** C7, as the specification states it, fails in the alternating variant:
    after Ann's rock attack and Bob's rock defense the game goes on, yet
    Ann's attack field and Bob's defense field still hold their selections
    and the turn holder is Bob, not the first player. *)
Lemma nonterminal_defense_does_not_reset :
  let r := Alt.submit_defense Scenario.altAttacked "ABC123" "b" "rock" 0 in
  Alt.thrown r = None
  /\ Alt.emitted r
     = [Alt.ToRoom "ABC123"
          (Alt.AttackAnimation "a" "b" "rock" "rock" "normal")]
  /\ exists g',
       Alt.games (Alt.state_after r) !! "ABC123" = Some g'
       /\ Alt.phase g' <> game_over
       /\ Alt.winner g' = None
       /\ Alt.currentAttackType <$> Alt.players g' = [Some "rock"; None]
       /\ Alt.currentDefenseType <$> Alt.players g' = [None; Some "rock"]
       /\ Alt.currentTurn g' = Some "b"
       /\ ~ round_reset_alt g'.
Proof.
  cbv zeta. split; [vm_compute; reflexivity |].
  split; [vm_compute; reflexivity |].
  eexists. split; [vm_compute; reflexivity |].
  split; [simpl; discriminate |].
  repeat (split; [reflexivity |]).
  intros (_ & _ & Ht). simpl in Ht. discriminate Ht.
Qed.

(** C7, amended.  Simultaneous variant: a [processBattle] on a session of
    two players that does not end the game clears the attack and defense
    selections of both players, sets the phase to [selection] and gives the
    turn to the first player.  Alternating variant: a [submit_defense] that
    resolves a buffered attack and leaves the defender alive clears the
    buffered attack, leaves phase and winner as they were, and gives the
    turn to the defender in attack mode. *)
Theorem nonterminal_resolution_next_round :
  (forall (game : Simul.Game) (player1 player2 : Simul.Player)
          (rest : list Simul.Player) (rnd1 rnd2 : Q),
      Simul.players game = player1 :: player2 :: rest ->
      let g' := Simul.battle_game (Simul.processBattle game rnd1 rnd2) in
      Simul.phase g' <> game_over ->
      exists p1' p2',
        Simul.players g' = p1' :: p2' :: rest
        /\ Simul.currentAttackType p1' = None
        /\ Simul.currentDefenseType p1' = None
        /\ Simul.currentAttackType p2' = None
        /\ Simul.currentDefenseType p2' = None
        /\ Simul.phase g' = selection
        /\ Simul.currentTurn g' = Some (Simul.player_id player1)
        /\ Simul.player_id p1' = Simul.player_id player1)
  /\ (forall (st : Alt.State) (gameId playerId defenseType : string) (rnd : Q)
             (game : Alt.Game) (defender attacker : Alt.Player)
             (pending : Alt.PendingAttack),
      Alt.games st !! gameId = Some game ->
      Alt.find_id playerId (Alt.players game) = Some defender ->
      Alt.pendingAttack game = Some pending ->
      Alt.find_id (Alt.pending_playerId pending) (Alt.players game)
      = Some attacker ->
      (0 < Alt.health defender
           - damage (Alt.attack attacker)
               (multiplier
                  (getEffectivenessMultiplier
                     (Some (Alt.pending_attackType pending))
                     (Some defenseType)))
               (Alt.defense defender) rnd)%Z ->
      let r := Alt.submit_defense st gameId playerId defenseType rnd in
      Alt.thrown r = None
      /\ exists g', Alt.games (Alt.state_after r) !! gameId = Some g'
           /\ Alt.pendingAttack g' = None
           /\ Alt.currentTurn g' = Some playerId
           /\ Alt.currentTurnType g' = Alt.ATTACK
           /\ Alt.phase g' = Alt.phase game
           /\ Alt.winner g' = Alt.winner game).
Proof.
  split.
  - intros game player1 player2 rest rnd1 rnd2 Hp g' Hph. subst g'.
    destruct (SimulFacts.processBattle_nonterminal game player1 player2 rest
                rnd1 rnd2 Hp Hph) as (Hsel & Hturn & Hps).
    eexists _, _. split; [exact Hps |]. simpl. auto 10.
  - intros. eapply AltFacts.submit_defense_nonterminal; eassumption.
Qed.

Lemma nonterminal_resolution_next_round_witness :
  (exists p1' p2',
      Simul.players
        (Simul.battle_game
           (Simul.processBattle
              (Simul.mkGame "ABC123"
                 [Simul.mkPlayer "a" "Ann" 100 100 15 5
                    (Some "rock") (Some "rock") true;
                  Simul.mkPlayer "b" "Bob" 100 100 15 5
                    (Some "rock") (Some "scissors") true]
                 (Some "b") selection None []) 0 0))
      = [p1'; p2']
      /\ Simul.currentAttackType p1' = None
      /\ Simul.currentAttackType p2' = None)
  /\ exists g',
       Alt.games
         (Alt.state_after
            (Alt.submit_defense Scenario.altAttacked "ABC123" "b" "rock" 0))
         !! "ABC123" = Some g'
       /\ Alt.pendingAttack g' = None
       /\ Alt.currentTurn g' = Some "b".
Proof.
  destruct nonterminal_resolution_next_round as [HS HA]. split.
  - destruct (HS (Simul.mkGame "ABC123"
                    [Simul.mkPlayer "a" "Ann" 100 100 15 5
                       (Some "rock") (Some "rock") true;
                     Simul.mkPlayer "b" "Bob" 100 100 15 5
                       (Some "rock") (Some "scissors") true]
                    (Some "b") selection None []) _ _ [] 0%Q 0%Q eq_refl)
      as (p1' & p2' & Hps & Ha1 & _ & Ha2 & _).
    + vm_compute. discriminate.
    + exists p1', p2'. auto.
  - destruct (HA Scenario.altAttacked "ABC123" "b" "rock" 0%Q
                (Alt.mkGame "ABC123"
                   [Alt.mkPlayer "a" "Ann" 100 100 15 5 (Some "rock") None;
                    Alt.newPlayer "b" "Bob"]
                   (Some "b") Alt.DEFEND
                   (Some (Alt.mkPendingAttack "a" "rock")) selection None
                   ["Ann chose rock attack. Bob must choose a defense.";
                    "Bob joined the game. Ann goes first with an attack!"])
                (Alt.newPlayer "b" "Bob")
                (Alt.mkPlayer "a" "Ann" 100 100 15 5 (Some "rock") None)
                (Alt.mkPendingAttack "a" "rock"))
      as (_ & g' & Hg' & Hpa & Ht & _).
    + vm_compute. reflexivity.
    + reflexivity.
    + reflexivity.
    + reflexivity.
    + vm_compute. reflexivity.
    + exists g'. auto.
Defined.

(** C8, as the specification states it, fails on the stored state.
    Alternating variant: when Bob leaves the session he shares with Ann, the
    stored session keeps phase [selection] and no winner.  Simultaneous
    variant: when Ann, alone in her session, leaves, the session is still in
    the registry when the handler returns. *)
Lemma leave_keeps_stored_session :
  ~ leave_declares_winner_alt Scenario.altPaired "ABC123" "b"
  /\ ~ leave_removes_at_once_simul Scenario.hosted "ABC123" "a"
  /\ Simul.games
       (Simul.state_after (Simul.leave_game Scenario.hosted "ABC123" "a"))
       !! "ABC123"
     = Some (Simul.mkGame "ABC123" [Simul.newPlayer "a" "Ann"] None waiting
               None ["Waiting for opponent to join..."]).
Proof.
  split; [| split; [| vm_compute; reflexivity]].
  - intros H.
    destruct (H (Alt.mkGame "ABC123"
                   [Alt.newPlayer "a" "Ann"; Alt.newPlayer "b" "Bob"]
                   (Some "a") Alt.ATTACK None selection None
                   ["Bob joined the game. Ann goes first with an attack!"])
                (Alt.newPlayer "a" "Ann"))
      as (g' & Hg' & _ & Hph).
    + vm_compute. reflexivity.
    + reflexivity.
    + vm_compute in Hg'. injection Hg' as <-. discriminate Hph.
  - intros H.
    specialize (H (Simul.mkGame "ABC123" [Simul.newPlayer "a" "Ann"] None
                     waiting None ["Waiting for opponent to join..."])).
    assert (Hn : Simul.games
                   (Simul.state_after
                      (Simul.leave_game Scenario.hosted "ABC123" "a"))
                   !! "ABC123" = None).
    { apply H; [vm_compute; reflexivity | reflexivity]. }
    vm_compute in Hn. discriminate Hn.
Qed.

(** C8, amended.  For every [leave_game] on a stored session:
    - alternating variant: the leaver is taken out of [players]; when a
      player stays, the room is sent a copy of the session whose phase is
      [game_over], whose winner is the first player who stays and whose log
      starts with a departure line, while the stored session keeps its
      phase, winner and log; the removal of the session is scheduled
      5000 ms later and deletes it when it runs; when nobody stays the
      session is deleted at once and nothing is scheduled;
    - simultaneous variant: the registry is left as it was (the leaver is
      neither removed nor marked); when a player with another id is in the
      session the room is sent the same kind of copy with that player as
      winner; the removal of the session is always scheduled 5000 ms later
      and deletes it when it runs. *)
Theorem leave_game_effects :
  (forall (st : Alt.State) (gameId playerId : string) (game : Alt.Game),
      Alt.games st !! gameId = Some game ->
      let remaining :=
        List.filter (fun p => bool_decide (Alt.player_id p <> playerId))
          (Alt.players game) in
      let r := Alt.leave_game st gameId playerId in
      match remaining with
      | other :: _ =>
          (exists g',
              Alt.games (Alt.state_after r) !! gameId = Some g'
              /\ Alt.players g' = remaining
              /\ Alt.phase g' = Alt.phase game
              /\ Alt.winner g' = Alt.winner game
              /\ Alt.gameLog g' = Alt.gameLog game)
          /\ Alt.timers (Alt.state_after r)
             = (Alt.timers st ++ [mkTimer 5000 (DeleteGame gameId)])%list
          /\ (exists snapshot who more,
                 Alt.emitted r
                 = Alt.ToRoom gameId (Alt.GameStateUpdate snapshot) :: more
                 /\ Alt.players snapshot = remaining
                 /\ Alt.phase snapshot = game_over
                 /\ Alt.winner snapshot = Some (Alt.player_id other)
                 /\ Alt.gameLog snapshot
                    = (who +:+ " left the game.") :: Alt.gameLog game)
          /\ Alt.games
               (Alt.fire_timer (Alt.state_after r) (length (Alt.timers st)))
               !! gameId = None
      | [] =>
          Alt.games (Alt.state_after r) !! gameId = None
          /\ Alt.timers (Alt.state_after r) = Alt.timers st
      end)
  /\ (forall (st : Simul.State) (gameId playerId : string) (game : Simul.Game),
      Simul.games st !! gameId = Some game ->
      let r := Simul.leave_game st gameId playerId in
      Simul.games (Simul.state_after r) = Simul.games st
      /\ Simul.timers (Simul.state_after r)
         = (Simul.timers st ++ [mkTimer 5000 (DeleteGame gameId)])%list
      /\ (forall other,
             Simul.find_other playerId (Simul.players game) = Some other ->
             exists snapshot who,
               Simul.emitted r
               = [Simul.ToRoom gameId (Simul.GameStateUpdate snapshot)]
               /\ Simul.players snapshot = Simul.players game
               /\ Simul.phase snapshot = game_over
               /\ Simul.winner snapshot = Some (Simul.player_id other)
               /\ Simul.gameLog snapshot
                  = (who +:+ " left the game.") :: Simul.gameLog game)
      /\ Simul.games
           (Simul.fire_timer (Simul.state_after r) (length (Simul.timers st)))
           !! gameId = None).
Proof.
  split.
  - intros st gameId playerId game Hg remaining r. subst r.
    destruct remaining as [|other rest] eqn:Hrem; subst remaining.
    + rewrite (AltFacts.leave_game_last st gameId playerId game Hg Hrem).
      simpl. split; [apply lookup_delete_eq | reflexivity].
    + destruct (AltFacts.leave_game_remaining st gameId playerId game other
                  rest Hg Hrem) as (Hst & more & Hem).
      rewrite Hst, Hem. simpl. repeat split.
      * eexists. split; [apply lookup_insert_eq |]. simpl. auto.
      * eexists _, "Opponent", more. split; [reflexivity |]. simpl. auto.
      * rewrite AltFacts.alt_fire_scheduled_delete. simpl.
        apply lookup_delete_eq.
  - intros st gameId playerId game Hg r. subst r.
    destruct (SimulFacts.leave_game_effect st gameId playerId game Hg)
      as (Hst & _ & Hsome & _).
    rewrite Hst. simpl. repeat split.
    + intros other Ho. destruct (Hsome other Ho) as (who & Hem).
      eexists _, who. split; [exact Hem |]. simpl. auto.
    + rewrite SimulFacts.fire_scheduled_delete. simpl.
      apply lookup_delete_eq.
Qed.

Lemma leave_game_effects_witness :
  (exists g',
      Alt.games
        (Alt.state_after (Alt.leave_game Scenario.altPaired "ABC123" "b"))
        !! "ABC123" = Some g'
      /\ Alt.phase g' = selection /\ Alt.winner g' = None)
  /\ Simul.games
       (Simul.state_after (Simul.leave_game Scenario.hosted "ABC123" "a"))
     = Simul.games Scenario.hosted.
Proof.
  destruct leave_game_effects as [HA HS]. split.
  - pose proof (HA Scenario.altPaired "ABC123" "b"
                  (Alt.mkGame "ABC123"
                     [Alt.newPlayer "a" "Ann"; Alt.newPlayer "b" "Bob"]
                     (Some "a") Alt.ATTACK None selection None
                     ["Bob joined the game. Ann goes first with an attack!"]))
      as H.
    cbv zeta in H. simpl List.filter in H.
    destruct H as ((g' & Hg' & _ & Hph & Hw & _) & _).
    + vm_compute. reflexivity.
    + exists g'. auto.
  - refine (proj1 (HS Scenario.hosted "ABC123" "a"
                     (Simul.mkGame "ABC123" [Simul.newPlayer "a" "Ann"] None
                        waiting None ["Waiting for opponent to join..."]) _)).
    vm_compute. reflexivity.
Defined.

(** A [create_game] stores the new session under [generateGameId r36]
    whatever the registry holds there. *)
Lemma create_game_overwrites (st : Alt.State) (playerId playerName r36 : string) :
  Alt.games (Alt.state_after (Alt.create_game st playerId playerName r36))
    !! generateGameId r36
  = Some (Alt.mkGame (generateGameId r36) [Alt.newPlayer playerId playerName]
            None Alt.ATTACK None waiting None
            ["Waiting for opponent to join..."]).
Proof.
  unfold Alt.create_game. rewrite AltFacts.broadcastAvailableGames_state.
  simpl. apply lookup_insert_eq.
Qed.

(** C9.  A [create_game] should store the new session under an id that no
    stored session has.  It does not: [generateGameId] reads six characters
    of the rendering of one random draw and never looks at the registry.
    When Cy's draw shares its first six base-36 digits with the draw that
    named Ann's session, Cy's session is stored under the same id and Ann's
    session is gone from the registry, in both servers. *)
Theorem create_game_id_collision :
  generateGameId "0.abc123xyz" = "ABC123"
  /\ generateGameId "0.abc123k0p" = "ABC123"
  /\ (fun g => Alt.player_id <$> Alt.players g) <$>
       (Alt.games Scenario.altHosted !! "ABC123") = Some ["a"]
  /\ (let st' :=
        Alt.state_after
          (Alt.create_game Scenario.altHosted "c" "Cy" "0.abc123k0p") in
      (fun g => Alt.player_id <$> Alt.players g) <$> (Alt.games st' !! "ABC123")
      = Some ["c"]
      /\ size (Alt.games st') = 1%nat)
  /\ (fun g => Simul.player_id <$> Simul.players g) <$>
       (Simul.games Scenario.hosted !! "ABC123") = Some ["a"]
  /\ (let st' :=
        Simul.state_after
          (Simul.create_game Scenario.hosted "c" "Cy" "0.abc123k0p") in
      (fun g => Simul.player_id <$> Simul.players g) <$> (Simul.games st' !! "ABC123")
      = Some ["c"]
      /\ size (Simul.games st') = 1%nat).
Proof.
  cbv zeta. repeat split; vm_compute; reflexivity.
Qed.

(** C10.  The winner of a stored session should be set only while its phase
    is [game_over].  In the alternating server it is not: once Ann has
    beaten Bob and Bob has left, Cy's [join_game] finds one player in the
    session, adds Cy and sets the phase to [selection], and the winner
    stays Ann.  None of the requests of the run throws. *)
Theorem winner_survives_rejoin :
  exists st g,
    Alt.run Alt.init Scenario.rejoinAfterGameOver = Some st
    /\ Alt.reachable st
    /\ Alt.games st !! "ABC123" = Some g
    /\ Alt.player_id <$> Alt.players g = ["a"; "c"]
    /\ Alt.winner g = Some "a"
    /\ Alt.phase g = selection.
Proof.
  eexists _, _. split; [vm_compute; reflexivity |].
  split.
  - assert (Hall : forall reqs st, Alt.reachable st ->
                     Alt.reachable
                       (fold_left
                          (fun st req => Alt.state_after (Alt.handle st req))
                          reqs st)).
    { induction reqs as [|req reqs IH]; intros st Hst; simpl; [exact Hst |].
      apply IH. constructor. exact Hst. }
    pose proof (Hall Scenario.rejoinAfterGameOver _ Alt.reachable_init) as Hr.
    vm_compute in Hr. exact Hr.
  - split; [vm_compute; reflexivity |]. repeat split.
Qed.

(** ** Further properties of the shared helpers *)

Lemma toUpperCase_length (s : string) :
  String.length (toUpperCase s) = String.length s.
Proof. induction s as [|c s IH]; simpl; congruence. Qed.

Lemma substring_length (n m : nat) (s : string) :
  String.length (substring n m s) = Nat.min m (String.length s - n).
Proof.
  revert n m. induction s as [|c s IH]; intros [|n] [|m]; simpl;
    try reflexivity; try lia.
  - rewrite IH. simpl. rewrite Nat.sub_0_r. reflexivity.
  - rewrite IH. reflexivity.
  - rewrite IH. reflexivity.
Qed.

Lemma upper_ascii_idempotent (c : ascii) :
  upper_ascii (upper_ascii c) = upper_ascii c.
Proof. destruct c as [[] [] [] [] [] [] [] []]; reflexivity. Qed.

Lemma toUpperCase_idempotent (s : string) :
  toUpperCase (toUpperCase s) = toUpperCase s.
Proof.
  induction s as [|c s IH]; simpl; [reflexivity |].
  rewrite upper_ascii_idempotent, IH. reflexivity.
Qed.

(** X1. The id that [generateGameId] returns has as many characters as the
    rendering has after its first two, six at most (so none at all for a
    rendering of at most two characters, such as ["0"]), and upper-casing it
    again changes nothing: no lower-case letter is left in it. *)
Theorem generateGameId_shape (r36 : string) :
  String.length (generateGameId r36) = Nat.min 6 (String.length r36 - 2)
  /\ toUpperCase (generateGameId r36) = generateGameId r36.
Proof.
  unfold generateGameId. split.
  - rewrite toUpperCase_length. apply substring_length.
  - apply toUpperCase_idempotent.
Qed.

(** The three answers of the resolver. *)
Lemma getEffectivenessMultiplier_cases (attackType defenseType : option string) :
  getEffectivenessMultiplier attackType defenseType = mkEffectiveness 2 "super"
  \/ getEffectivenessMultiplier attackType defenseType
     = mkEffectiveness 1 "normal"
  \/ getEffectivenessMultiplier attackType defenseType
     = mkEffectiveness (1 # 2) "not".
Proof.
  unfold getEffectivenessMultiplier.
  destruct (_ || _); [auto |]. destruct (bool_decide _); auto.
Qed.

(** X2. On any two values, [null] and unknown strings included, the resolver
    answers normal exactly when the two are equal, its multiplier is the one
    of its tier (2 for super, 1 for normal, 1/2 for not), and super is
    one-way: when an attack is super effective against a defense, the
    reversed pair is not very effective. *)
Theorem getEffectivenessMultiplier_any (attackType defenseType : option string) :
  let e := getEffectivenessMultiplier attackType defenseType in
  (type e = "normal" <-> attackType = defenseType)
  /\ (e = mkEffectiveness 2 "super" \/ e = mkEffectiveness 1 "normal"
      \/ e = mkEffectiveness (1 # 2) "not")
  /\ (type e = "super" ->
      getEffectivenessMultiplier defenseType attackType
      = mkEffectiveness (1 # 2) "not").
Proof.
  unfold getEffectivenessMultiplier, is_move.
  repeat case_bool_decide; simplify_eq; simpl;
    (split; [split; [discriminate || reflexivity || (intros; assumption)
                    | discriminate || reflexivity || (intros; exfalso; congruence)]
            | split; [auto | discriminate || reflexivity
                             || (intros; unfold getEffectivenessMultiplier, is_move;
                                 repeat case_bool_decide; simplify_eq; reflexivity)]]).
Qed.

Lemma getEffectivenessMultiplier_any_witness :
  type (getEffectivenessMultiplier (Some "rock") (Some "scissors")) = "super"
  /\ getEffectivenessMultiplier (Some "scissors") (Some "rock")
     = mkEffectiveness (1 # 2) "not"
  /\ type (getEffectivenessMultiplier None None) = "normal".
Proof.
  split; [reflexivity |]. split.
  - exact (proj2 (proj2 (getEffectivenessMultiplier_any
                           (Some "rock") (Some "scissors"))) eq_refl).
  - exact (proj2 (proj1 (getEffectivenessMultiplier_any None None)) eq_refl).
Defined.

(** X3. With the stats every player is created with (attack 15, defense 5)
    a resolution deals between 5 and 29: 25 to 29 when the attack is super
    effective, 10 to 14 when it is normal, 5 or 6 when it is not very
    effective. *)
Theorem damage_of_created_players
    (attackType defenseType : option string) (rnd : Q) :
  (0 <= rnd)%Q -> (rnd < 1)%Q ->
  let e := getEffectivenessMultiplier attackType defenseType in
  let dmg := damage 15 (multiplier e) 5 rnd in
  (type e = "super" -> (25 <= dmg <= 29)%Z)
  /\ (type e = "normal" -> (10 <= dmg <= 14)%Z)
  /\ (type e = "not" -> (5 <= dmg <= 6)%Z)
  /\ (5 <= dmg <= 29)%Z.
Proof.
  intros H0 H1 e dmg. subst dmg.
  pose proof (jitter_range rnd H0 H1) as Hj.
  unfold damage. set (j := jitter rnd) in *.
  assert (j = 0 \/ j = 1 \/ j = 2 \/ j = 3 \/ j = 4)%Z as Hc by lia.
  subst e.
  destruct (getEffectivenessMultiplier_cases attackType defenseType)
    as [He | [He | He]]; rewrite He; simpl multiplier; simpl type;
    destruct Hc as [-> | [-> | [-> | [-> | ->]]]];
    repeat split; intros; try discriminate; vm_compute; discriminate.
Qed.

Lemma damage_of_created_players_witness :
  (25 <= damage 15
           (multiplier (getEffectivenessMultiplier (Some "paper") (Some "rock")))
           5 (1 # 2) <= 29)%Z.
Proof.
  refine (proj1 (damage_of_created_players (Some "paper") (Some "rock") (1 # 2)
                   _ _) eq_refl).
  - unfold Qle; simpl; lia.
  - unfold Qlt; simpl; lia.
Defined.

(** ** The simultaneous variant: the shape of reachable sessions *)

Module SimulInv.
Import Simul.

Lemma update_found_same_stats (playerId : string) (u : Player -> Player)
    (l : list Player) :
  (forall p, same_stats p (u p)) ->
  Forall2 same_stats l (update_found playerId u l).
Proof.
  intros Hu. induction l as [|p l IH]; simpl; [constructor |].
  assert (Hrefl : forall l0 : list Player, Forall2 same_stats l0 l0).
  { induction l0; constructor; [repeat split | assumption]. }
  case_bool_decide; constructor; auto. repeat split.
Qed.

Lemma same_stats_ok (l l' : list Player) :
  Forall2 same_stats l l' -> Forall player_ok l -> Forall player_ok l'.
Proof.
  induction 1 as [|p p' l l' (_ & Hh & Ha & Hd & Hm) _ IH]; intros HF;
    [constructor |].
  inversion HF as [|? ? (Ha' & Hd' & Hm' & Hh') HF']; subst.
  constructor; [| auto]. unfold player_ok. rewrite Hh, Ha, Hd, Hm. auto.
Qed.

Lemma same_stats_standing (l l' : list Player) :
  Forall2 same_stats l l' ->
  Forall (fun p => (0 < health p)%Z) l -> Forall (fun p => (0 < health p)%Z) l'.
Proof.
  induction 1 as [|p p' l l' (_ & Hh & _) _ IH]; intros HF; [constructor |].
  inversion HF; subst. constructor; [rewrite Hh; assumption | auto].
Qed.

Lemma same_stats_down (l l' : list Player) :
  Forall2 same_stats l l' ->
  Exists (fun p => health p = 0%Z) l -> Exists (fun p => health p = 0%Z) l'.
Proof.
  induction 1 as [|p p' l l' (_ & Hh & _) _ IH]; intros HE;
    inversion HE; subst.
  - left. rewrite Hh. assumption.
  - right. auto.
Qed.

(** Writing moves and readiness through [find] keeps the shape. *)
Lemma session_inv_moves (key : string) (g : Game) (ps : list Player)
    (t : option string) (l : list string) :
  Forall2 same_stats (players g) ps ->
  (phase g = waiting -> t = None) ->
  session_inv key g ->
  session_inv key (mkGame (game_id g) ps t (phase g) (winner g) l).
Proof.
  intros H2 Ht (Hid & Hok & Hshape).
  pose proof (Forall2_length _ _ _ H2) as Hlen.
  split; [exact Hid |]. split; [eapply same_stats_ok; eassumption |]. simpl.
  destruct Hshape as [(Hph & Hl & Hst & Hturn & Hw) | [(Hph & Hl & Hst & Hw)
                                                     | (Hph & Hl & Hdn)]].
  - left. rewrite <- Hlen.
    repeat split; auto. eapply same_stats_standing; eassumption.
  - right. left. rewrite <- Hlen.
    repeat split; auto. eapply same_stats_standing; eassumption.
  - right. right. rewrite <- Hlen.
    repeat split; auto. eapply same_stats_down; eassumption.
Qed.

(** The two players after [processBattle], with all their stats. *)
Lemma processBattle_two (game : Game) (player1 player2 : Player)
    (rnd1 rnd2 : Q) :
  players game = [player1; player2] ->
  exists p1' p2',
    players (battle_game (processBattle game rnd1 rnd2)) = [p1'; p2']
    /\ health p1' = health1_after player1 player2 rnd2
    /\ health p2' = health2_after player1 player2 rnd1
    /\ attack p1' = attack player1 /\ defense p1' = defense player1
    /\ maxHealth p1' = maxHealth player1
    /\ attack p2' = attack player2 /\ defense p2' = defense player2
    /\ maxHealth p2' = maxHealth player2
    /\ game_id (battle_game (processBattle game rnd1 rnd2)) = game_id game.
Proof.
  intros Hp. unfold processBattle. rewrite Hp. cbv zeta.
  fold (health1_after player1 player2 rnd2).
  fold (health2_after player1 player2 rnd1).
  destruct (bool_decide _ || bool_decide _); simpl.
  - destruct (bool_decide _ && bool_decide _); [| destruct (bool_decide _)];
      eexists _, _; (split; [reflexivity |]); simpl; auto 12.
  - eexists _, _. split; [reflexivity |]. simpl. auto 12.
Qed.

Lemma health_after_bounds (player1 player2 : Player) (rnd1 rnd2 : Q) :
  (0 <= health player1)%Z -> (0 <= health player2)%Z ->
  (0 <= health1_after player1 player2 rnd2 <= health player1)%Z
  /\ (0 <= health2_after player1 player2 rnd1 <= health player2)%Z
  /\ (health player1 = 0%Z -> health1_after player1 player2 rnd2 = 0%Z)
  /\ (health player2 = 0%Z -> health2_after player1 player2 rnd1 = 0%Z).
Proof.
  intros H1 H2. unfold health1_after, health2_after, damage. lia.
Qed.

Lemma processBattle_session_inv (key : string) (game : Game) (rnd1 rnd2 : Q) :
  session_inv key game ->
  session_inv key (battle_game (processBattle game rnd1 rnd2)).
Proof.
  intros Hinv.
  destruct (players game) as [|p1 [|p2 [|p3 rest]]] eqn:Hp;
    try (unfold processBattle; rewrite Hp; exact Hinv).
  2:{ destruct Hinv as (_ & _ & [(_ & Hl & _) | [(_ & Hl & _) | (_ & Hl & _)]]);
        rewrite Hp in Hl; discriminate Hl. }
  destruct Hinv as (Hid & Hok & Hshape). rewrite Hp in Hok, Hshape.
  inversion Hok as [|? ? (Ha1 & Hd1 & Hm1 & Hh1) Hok']; subst.
  inversion Hok' as [|? ? (Ha2 & Hd2 & Hm2 & Hh2) _]; subst.
  destruct (processBattle_two game p1 p2 rnd1 rnd2 Hp)
    as (p1' & p2' & Hps & Hn1 & Hn2 & Ha1' & Hd1' & Hm1' & Ha2' & Hd2' & Hm2'
        & Hgid).
  destruct (health_after_bounds p1 p2 rnd1 rnd2) as (Hb1 & Hb2 & Hz1 & Hz2);
    [lia | lia |].
  destruct (SimulFacts.processBattle_verdict game p1 p2 [] rnd1 rnd2 Hp)
    as (Hdraw & Hw2 & Hw1 & Hnext).
  cbv zeta in *.
  set (h1 := health1_after p1 p2 rnd2) in *.
  set (h2 := health2_after p1 p2 rnd1) in *.
  split; [congruence |]. rewrite Hps. split.
  { repeat constructor; unfold player_ok; try congruence; lia. }
  assert (Hover : phase (battle_game (processBattle game rnd1 rnd2)) = game_over ->
                  (h1 = 0 \/ h2 = 0)%Z ->
                  phase (battle_game (processBattle game rnd1 rnd2)) = game_over
                  /\ length [p1'; p2'] = 2%nat
                  /\ Exists (fun p => health p = 0%Z) [p1'; p2']).
  { intros Hph [Hz | Hz]; (split; [exact Hph |]); (split; [reflexivity |]).
    - left. congruence.
    - right. left. congruence. }
  destruct (Z_le_gt_dec h1 0) as [H1 | H1], (Z_le_gt_dec h2 0) as [H2 | H2].
  - right. right. apply Hover; [apply Hdraw; assumption | lia].
  - right. right. apply Hover; [apply Hw2; [assumption | lia] | lia].
  - right. right. apply Hover; [apply Hw1; [lia | assumption] | lia].
  - destruct Hnext as (Hw & Hsel & _); [lia | lia |].
    right. left. split; [exact Hsel |]. split; [reflexivity |]. split.
    + repeat constructor; lia.
    + rewrite Hw.
      destruct Hshape as [(_ & Hl & _) | [(_ & _ & _ & Hwin) | (_ & _ & Hdn)]].
      * discriminate Hl.
      * exact Hwin.
      * exfalso. inversion Hdn as [? ? Hz | ? ? Hdn']; subst.
        -- specialize (Hz1 Hz). lia.
        -- inversion Hdn' as [? ? Hz | ? ? Hnil]; subst;
             [specialize (Hz2 Hz); lia | inversion Hnil].
Qed.


Lemma handle_session_inv (st : State) (req : Request) :
  map_Forall session_inv (games st) ->
  map_Forall session_inv (games (state_after (handle st req))).
Proof.
  intros Hinv.
  destruct req as [p n r | g p n | | g p a d r1 r2 | g p | n]; simpl.
  - apply map_Forall_insert_2; [| exact Hinv].
    split; [reflexivity |]. split.
    + constructor; [| constructor]. unfold player_ok. simpl. lia.
    + left. simpl. repeat split. constructor; [simpl; lia | constructor].
  - unfold join_game. destruct (games st !! g) as [game|] eqn:Hg; [| exact Hinv].
    case_bool_decide as Hlen; [exact Hinv |]. simpl.
    apply map_Forall_insert_2; [| exact Hinv].
    destruct (Hinv _ _ Hg) as (Hid & Hok & [(Hph & Hl & Hst & Hturn & Hw)
                                           | [(_ & Hl & _) | (_ & Hl & _)]]);
      try lia.
    destruct (players game) as [|host [|? ?]] eqn:Hp; try discriminate Hl.
    split; [exact Hid |]. simpl. split.
    + inversion Hok; subst. constructor; [assumption |].
      constructor; [| constructor]. unfold player_ok. simpl. lia.
    + right. left. repeat split; try assumption.
      inversion Hst; subst. constructor; [assumption |].
      constructor; [simpl; lia | constructor].
  - unfold get_available_games. destruct (availableGames st); exact Hinv.
  - unfold submit_move. destruct (games st !! g) as [game|] eqn:Hg; [| exact Hinv].
    pose proof (Hinv _ _ Hg) as Hgame. simpl in Hgame.
    destruct (find_id p (players game)); [| exact Hinv].
    case_bool_decide as Hturn; [exact Hinv |].
    assert (Hnw : phase game <> waiting).
    { intros Hph.
      destruct Hgame as (_ & _ & [(_ & _ & _ & Ht & _) | [(Hs & _) | (Hs & _)]]);
        congruence. }
    assert (H2 : Forall2 same_stats (players game)
                   (update_found p (fun q => set_moves q (Some a) (Some d) true)
                      (players game))).
    { apply update_found_same_stats. intros q. repeat split. }
    destruct (forallb _ _); simpl.
    + apply map_Forall_insert_2; [| exact Hinv].
      apply processBattle_session_inv.
      apply (session_inv_moves g game _ (currentTurn game) (gameLog game) H2);
        [intros; contradiction | exact Hgame].
    + apply map_Forall_insert_2; [| exact Hinv].
      apply (session_inv_moves g game _ _ _ H2);
        [intros; contradiction | exact Hgame].
  - unfold leave_game. destruct (games st !! g); exact Hinv.
  - unfold fire_timer. destruct (timers st !! n) as [t|]; [| exact Hinv]. simpl.
    destruct (action t); simpl; try exact Hinv.
    apply map_Forall_delete. exact Hinv.
Qed.

Lemma reachable_session_inv (st : State) :
  reachable st -> map_Forall session_inv (games st).
Proof.
  induction 1 as [| st req _ IH].
  - apply map_Forall_empty.
  - apply handle_session_inv. exact IH.
Qed.

End SimulInv.

(** ** Listings over the registry *)

(** The values of the registry that pass a test, as [Object.values(games)
    .filter(...)] enumerates them. *)
Lemma filter_values_In {A : Type} (f : A -> bool) (m : gmap string A) (x : A) :
  In x (List.filter f (map snd (map_to_list m)))
  <-> f x = true /\ exists k, m !! k = Some x.
Proof.
  rewrite filter_In, in_map_iff. split.
  - intros [([k y] & Hy & Hin) Hf]. simpl in Hy. subst y.
    split; [exact Hf |]. exists k.
    apply elem_of_map_to_list. apply list_elem_of_In. exact Hin.
  - intros [Hf (k & Hk)]. split; [| exact Hf].
    exists (k, x). split; [reflexivity |].
    apply list_elem_of_In. apply elem_of_map_to_list. exact Hk.
Qed.

Module SimulRun.
Import Simul.

Lemma hosted_reachable : reachable Scenario.hosted.
Proof. exact (reachable_step _ _ reachable_init). Qed.

Lemma paired_reachable : reachable Scenario.paired.
Proof. exact (reachable_step _ _ hosted_reachable). Qed.




Lemma processBattle_stays_over (game : Game) (p1 p2 : Player) (rnd1 rnd2 : Q) :
  players game = [p1; p2] ->
  (0 <= health p1)%Z -> (0 <= health p2)%Z ->
  (health p1 = 0 \/ health p2 = 0)%Z ->
  phase (battle_game (processBattle game rnd1 rnd2)) = game_over.
Proof.
  intros Hp H1 H2 Hz.
  destruct (SimulFacts.processBattle_verdict game p1 p2 [] rnd1 rnd2 Hp)
    as (Hdraw & Hw2 & Hw1 & _).
  destruct (SimulInv.health_after_bounds p1 p2 rnd1 rnd2 H1 H2)
    as (Hb1 & Hb2 & Hz1 & Hz2).
  cbv zeta in *.
  destruct (Z_le_gt_dec (health1_after p1 p2 rnd2) 0) as [Hh1 | Hh1],
           (Z_le_gt_dec (health2_after p1 p2 rnd1) 0) as [Hh2 | Hh2].
  - apply Hdraw; assumption.
  - apply Hw2; [assumption | lia].
  - apply Hw1; [lia | assumption].
  - exfalso. destruct Hz as [Hz | Hz];
      [specialize (Hz1 Hz) | specialize (Hz2 Hz)]; lia.
Qed.

Lemma steps_reachable (reqs : list Request) (st : State) :
  reachable st -> reachable (steps st reqs).
Proof.
  revert st. induction reqs as [|req reqs IH]; intros st Hst; [exact Hst |].
  apply (IH (state_after (handle st req))). constructor. exact Hst.
Qed.

Lemma finished_reachable : reachable Scenario.finished.
Proof. apply steps_reachable. exact paired_reachable. Qed.

End SimulRun.

(** ** The simultaneous variant: further properties *)

Module SimulProps.
Import Simul.

(** X4. In every reachable state of the simultaneous server the session
    stored under a key carries that key as its id, its phase is never
    [battle], it has exactly one player while it waits and exactly two
    otherwise, and nobody holds the turn while it waits. *)
Theorem session_shape (st : State) (key : string) (g : Game) :
  reachable st -> games st !! key = Some g ->
  game_id g = key
  /\ phase g <> battle
  /\ (phase g = waiting <-> length (players g) = 1%nat)
  /\ (phase g <> waiting <-> length (players g) = 2%nat)
  /\ (phase g = waiting -> currentTurn g = None).
Proof.
  intros Hr Hg.
  destruct (SimulInv.reachable_session_inv st Hr key g Hg)
    as (Hid & _ & [(Hph & Hl & _ & Ht & _) | [(Hph & Hl & _) | (Hph & Hl & _)]]);
    rewrite Hph, Hl; repeat split; try congruence; try discriminate; auto.
Qed.

Lemma session_shape_witness :
  exists g, games Scenario.paired !! "ABC123" = Some g
            /\ game_id g = "ABC123" /\ length (players g) = 2%nat.
Proof.
  eexists. split; [vm_compute; reflexivity |].
  destruct (session_shape Scenario.paired "ABC123" _ SimulRun.paired_reachable
              ltac:(vm_compute; reflexivity)) as (Hid & _ & _ & Hl & _).
  split; [exact Hid |]. apply Hl. discriminate.
Defined.

(** X5. In every reachable state of the simultaneous server every stored
    player has attack 15, defense 5, maxHealth 100 and a health between 0
    and 100; a session is in phase [game_over] exactly when one of its
    players is at health 0, and it has a winner only in that phase. *)
Theorem health_and_outcome (st : State) (key : string) (g : Game) :
  reachable st -> games st !! key = Some g ->
  Forall (fun p => attack p = 15%Z /\ defense p = 5%Z /\ maxHealth p = 100%Z
                   /\ (0 <= health p <= 100)%Z) (players g)
  /\ (phase g = game_over <-> Exists (fun p => health p = 0%Z) (players g))
  /\ (winner g <> None -> phase g = game_over).
Proof.
  intros Hr Hg.
  destruct (SimulInv.reachable_session_inv st Hr key g Hg)
    as (_ & Hok & Hshape).
  split; [exact Hok |].
  assert (Hno : Forall (fun p => (0 < health p)%Z) (players g) ->
                ~ Exists (fun p => health p = 0%Z) (players g)).
  { intros HF HE. apply Exists_exists in HE as (p & Hin & Hz).
    rewrite Forall_forall in HF. specialize (HF p Hin). lia. }
  destruct Hshape as [(Hph & _ & Hst & _ & Hw) | [(Hph & _ & Hst & Hw)
                                                 | (Hph & _ & Hdn)]].
  - split; [| congruence]. split; [congruence | intros HE; destruct (Hno Hst HE)].
  - split; [| congruence]. split; [congruence | intros HE; destruct (Hno Hst HE)].
  - split; [| auto]. split; auto.
Qed.

Lemma health_and_outcome_witness :
  exists g, games Scenario.paired !! "ABC123" = Some g
            /\ Forall (fun p => attack p = 15%Z /\ defense p = 5%Z
                                /\ maxHealth p = 100%Z
                                /\ (0 <= health p <= 100)%Z) (players g).
Proof.
  eexists. split; [vm_compute; reflexivity |].
  exact (proj1 (health_and_outcome Scenario.paired "ABC123" _
                  SimulRun.paired_reachable ltac:(vm_compute; reflexivity))).
Defined.



(** X7. In the simultaneous server a finished session stays finished: from a
    reachable state in which the session is in phase [game_over], whatever
    request comes next, the session stored under that key afterwards is in
    phase [game_over], unless the request is a [create_game] whose generated
    id is that key (which stores a new waiting session there). *)
Theorem game_over_is_final (st : State) (req : Request) (key : string)
    (g g' : Game) :
  reachable st -> games st !! key = Some g -> phase g = game_over ->
  games (state_after (handle st req)) !! key = Some g' ->
  phase g' = game_over
  \/ (exists p n r, req = CreateGame p n r /\ generateGameId r = key
                    /\ phase g' = waiting).
Proof.
  intros Hr Hg Hover Hg'.
  pose proof (SimulInv.reachable_session_inv st Hr key g Hg) as Hinv.
  assert (Hkeep : games st !! key = Some g' -> phase g' = game_over)
    by (intros; congruence).
  destruct req as [p n r | k p n | | k p a d r1 r2 | k p | n]; simpl in Hg'.
  - destruct (decide (generateGameId r = key)) as [Hk | Hne].
    + subst key. rewrite lookup_insert_eq in Hg'. injection Hg' as <-.
      right. eauto 6.
    + rewrite lookup_insert_ne in Hg' by exact Hne. auto.
  - left. unfold join_game in Hg'.
    destruct (games st !! k) as [game|] eqn:Hk; [| auto].
    case_bool_decide as Hlen; [auto |]. simpl in Hg'.
    destruct (decide (k = key)) as [-> | Hne].
    + exfalso. rewrite Hg in Hk. injection Hk as <-.
      destruct Hinv as (_ & _ & [(Hph & _) | [(Hph & _) | (_ & Hl & _)]]);
        [congruence | congruence | lia].
    + rewrite lookup_insert_ne in Hg' by exact Hne. auto.
  - left. unfold get_available_games in Hg'. destruct (availableGames st); auto.
  - left. unfold submit_move in Hg'.
    destruct (games st !! k) as [game|] eqn:Hk; [| auto].
    destruct (find_id p (players game)); [| auto].
    case_bool_decide as Hturn; [auto |].
    destruct (decide (k = key)) as [-> | Hne].
    2:{ destruct (forallb _ _); simpl in Hg';
          rewrite lookup_insert_ne in Hg' by exact Hne; auto. }
    rewrite Hg in Hk. injection Hk as <-.
    destruct (forallb _ _); simpl in Hg';
      rewrite lookup_insert_eq in Hg'; injection Hg' as <-; [| exact Hover].
    destruct Hinv as (_ & Hok & [(Hph & _) | [(Hph & _) | (_ & Hl & Hdn)]]);
      [congruence | congruence |].
    pose proof (SimulInv.update_found_same_stats p
                  (fun q => set_moves q (Some a) (Some d) true) (players g)
                  ltac:(intros q; repeat split)) as H2.
    pose proof (SimulInv.same_stats_ok _ _ H2 Hok) as Hok'.
    pose proof (SimulInv.same_stats_down _ _ H2 Hdn) as Hdn'.
    pose proof (Forall2_length _ _ _ H2) as Hlen'. rewrite Hl in Hlen'.
    destruct (update_found p _ (players g)) as [|q1 [|q2 [|? ?]]] eqn:Hq;
      try discriminate Hlen'.
    inversion Hok' as [|? ? (_ & _ & _ & Hh1) Hok'']; subst.
    inversion Hok'' as [|? ? (_ & _ & _ & Hh2) _]; subst.
    apply (SimulRun.processBattle_stays_over _ q1 q2); [reflexivity | lia | lia |].
    inversion Hdn' as [? ? Hz | ? ? Hdn'']; subst; [auto |].
    inversion Hdn'' as [? ? Hz | ? ? Hnil]; subst; [auto | inversion Hnil].
  - left. unfold leave_game in Hg'. destruct (games st !! k); auto.
  - left. unfold fire_timer in Hg'. destruct (timers st !! n) as [t|]; [| auto].
    simpl in Hg'. destruct (action t) as [k | k | k]; simpl in Hg'; auto.
    destruct (decide (k = key)) as [-> | Hne].
    + rewrite lookup_delete_eq in Hg'. discriminate.
    + rewrite lookup_delete_ne in Hg' by exact Hne. auto.
Qed.

Lemma game_over_is_final_witness :
  exists g',
    games (state_after
             (handle Scenario.finished
                (SubmitMove "ABC123" "b" "paper" "paper" (4 # 5) (4 # 5))))
      !! "ABC123" = Some g'
    /\ phase g' = game_over.
Proof.
  eexists. split; [vm_compute; reflexivity |].
  destruct (game_over_is_final Scenario.finished
              (SubmitMove "ABC123" "b" "paper" "paper" (4 # 5) (4 # 5))
              "ABC123" _ _ SimulRun.finished_reachable
              ltac:(vm_compute; reflexivity) eq_refl
              ltac:(vm_compute; reflexivity)) as [Hover | (p & n & r & Hreq & _)].
  - exact Hover.
  - discriminate Hreq.
Defined.

(** X8. A round of the simultaneous server.  In a session of two players
    with distinct ids (the second id not empty) where the first player holds
    the turn and the second is not ready, the first player's [submit_move]
    followed by the second player's resolves the round without a throw: each
    player's health drops by the damage of the other's attack against their
    own defense, floored at 0, and the draws passed with the first
    submission play no part. *)
Theorem round_applies_both_attacks (st : State)
    (gameId idA idB attackA defenseA attackB defenseB : string)
    (rndA1 rndA2 rnd1 rnd2 : Q) (g : Game) (pa pb : Player) :
  games st !! gameId = Some g ->
  players g = [pa; pb] ->
  player_id pa = idA -> player_id pb = idB ->
  idA <> idB -> idB <> "" ->
  currentTurn g = Some idA -> ready pb = false ->
  let st1 :=
    state_after (submit_move st gameId idA attackA defenseA rndA1 rndA2) in
  let r := submit_move st1 gameId idB attackB defenseB rnd1 rnd2 in
  thrown r = None
  /\ exists g',
       games (state_after r) !! gameId = Some g'
       /\ player_id <$> players g' = [idA; idB]
       /\ health <$> players g'
          = [Z.max 0
               (health pa
                - damage (attack pb)
                    (multiplier
                       (getEffectivenessMultiplier (Some attackB)
                          (Some defenseA)))
                    (defense pa) rnd2);
             Z.max 0
               (health pb
                - damage (attack pa)
                    (multiplier
                       (getEffectivenessMultiplier (Some attackA)
                          (Some defenseB)))
                    (defense pb) rnd1)].
Proof.
  intros Hg Hp HidA HidB Hne Hnempty Hturn Hready st1 r. subst st1 r.
  destruct g as [gid0 ps t ph w lg]. simpl in *. subst ps t.
  destruct pa as [ia na ha ma aa da ca cda ra].
  destruct pb as [ib nb hb mb ab db cb cdb rb]. simpl in *. subst ia ib rb.
  match goal with
  | |- context [submit_move st gameId idA attackA defenseA rndA1 rndA2] =>
      assert (Hst1 :
                state_after
                  (submit_move st gameId idA attackA defenseA rndA1 rndA2)
                = mkState
                    (<[gameId :=
                         mkGame gid0
                           [mkPlayer idA na ha ma aa da (Some attackA)
                              (Some defenseA) true;
                            mkPlayer idB nb hb mb ab db cb cdb false]
                           (Some idB) ph w
                           ((na +:+ " has chosen their move. Waiting for opponent...")
                            :: lg)]> (games st))
                    (timers st))
  end.
  { unfold submit_move. rewrite Hg. unfold find_id, find_other. simpl.
    repeat (case_bool_decide; try congruence; simpl). reflexivity. }
  rewrite Hst1. clear Hst1.
  unfold submit_move. simpl. rewrite lookup_insert_eq.
  unfold find_id, find_other. simpl.
  repeat (case_bool_decide; try congruence; simpl).
  match goal with
  | |- context [processBattle ?gm rnd1 rnd2] =>
      lazymatch eval simpl in (players gm) with
      | [?q1; ?q2] =>
          destruct (SimulFacts.processBattle_players gm q1 q2 [] rnd1 rnd2
                      eq_refl)
            as (Hthrow & p1' & p2' & Hps & Hid1 & Hid2 & Hh1 & Hh2)
      end
  end.
  split; [exact Hthrow |].
  eexists. split; [apply lookup_insert_eq |].
  rewrite Hps. simpl. rewrite Hid1, Hid2, Hh1, Hh2. split; reflexivity.
Qed.

Lemma round_applies_both_attacks_witness :
  exists g',
    games
      (state_after
         (submit_move
            (state_after
               (submit_move Scenario.paired "ABC123" "a" "rock" "scissors" 0 0))
            "ABC123" "b" "rock" "scissors" 0 0))
      !! "ABC123" = Some g'
    /\ health <$> players g' = [75%Z; 75%Z].
Proof.
  destruct (round_applies_both_attacks Scenario.paired "ABC123" "a" "b"
              "rock" "scissors" "rock" "scissors" 0 0 0 0
              (mkGame "ABC123" [newPlayer "a" "Ann"; newPlayer "b" "Bob"]
                 (Some "a") selection None
                 ["Bob joined the game. Ann goes first!"])
              (newPlayer "a" "Ann") (newPlayer "b" "Bob"))
    as (_ & g' & Hg' & _ & Hh).
  - vm_compute. reflexivity.
  - reflexivity.
  - reflexivity.
  - reflexivity.
  - discriminate.
  - discriminate.
  - reflexivity.
  - reflexivity.
  - exists g'. split; [exact Hg' |]. rewrite Hh. vm_compute. reflexivity.
Defined.

(** X9. A session of the simultaneous server whose two players carry the
    same id gets stuck.  When that id holds the turn and the second player
    is not ready, its [submit_move] is accepted, no battle is fought, and
    the turn becomes [null] (no player has another id to hand it to);
    from then on every [submit_move] on the session, by anybody, is
    answered with an error and changes nothing. *)
Theorem same_id_session_gets_stuck (st : State)
    (gameId playerId attackType defenseType : string) (rnd1 rnd2 : Q)
    (g : Game) (p1 p2 : Player) :
  games st !! gameId = Some g ->
  players g = [p1; p2] ->
  player_id p1 = playerId -> player_id p2 = playerId ->
  currentTurn g = Some playerId -> ready p2 = false ->
  let st1 :=
    state_after (submit_move st gameId playerId attackType defenseType
                   rnd1 rnd2) in
  (exists g1,
      games st1 !! gameId = Some g1
      /\ currentTurn g1 = None
      /\ phase g1 = phase g
      /\ health <$> players g1 = health <$> players g)
  /\ forall (anyId attack' defense' : string) (rnd1' rnd2' : Q),
       let r := submit_move st1 gameId anyId attack' defense' rnd1' rnd2' in
       state_after r = st1 /\ thrown r = None
       /\ exists message, emitted r = [ToSocket (ErrorMsg message)].
Proof.
  intros Hg Hp Hid1 Hid2 Hturn Hready st1.
  assert (Hst1 : exists g1,
             games st1 !! gameId = Some g1 /\ currentTurn g1 = None
             /\ phase g1 = phase g
             /\ health <$> players g1 = health <$> players g).
  { subst st1. destruct g as [gid0 ps t ph w lg]. simpl in *. subst ps t.
    destruct p1 as [i1 n1 h1 m1 a1 d1 c1 cd1 r1].
    destruct p2 as [i2 n2 h2 m2 a2 d2 c2 cd2 r2]. simpl in *. subst i1 i2 r2.
    unfold submit_move. rewrite Hg. unfold find_id, find_other. simpl.
    repeat (case_bool_decide; try congruence; simpl).
    eexists. split; [apply lookup_insert_eq |]. simpl. auto. }
  split; [exact Hst1 |].
  destruct Hst1 as (g1 & Hg1 & Hnull & _).
  intros anyId attack' defense' rnd1' rnd2'.
  destruct (SimulFacts.submit_move_rejected st1 gameId anyId attack' defense'
              rnd1' rnd2') as (Hsame & Hthrow & message & Hem & _).
  - right. exists g1. split; [exact Hg1 |]. right. congruence.
  - eauto.
Qed.

Lemma same_id_session_gets_stuck_witness :
  exists g1,
    games
      (state_after
         (submit_move
            (steps Scenario.hosted [JoinGame "ABC123" "a" "Ann"])
            "ABC123" "a" "rock" "paper" 0 0))
      !! "ABC123" = Some g1
    /\ currentTurn g1 = None.
Proof.
  destruct (same_id_session_gets_stuck
              (steps Scenario.hosted [JoinGame "ABC123" "a" "Ann"])
              "ABC123" "a" "rock" "paper" 0 0
              (mkGame "ABC123" [newPlayer "a" "Ann"; newPlayer "a" "Ann"]
                 (Some "a") selection None
                 ["Ann joined the game. Ann goes first!"])
              (newPlayer "a" "Ann") (newPlayer "a" "Ann"))
    as ((g1 & Hg1 & Hnull & _) & _); try reflexivity.
  exists g1. auto.
Defined.

End SimulProps.

(** ** The alternating variant: the shape of reachable sessions *)

Module AltInv.
Import Alt.

Lemma newPlayer_ok (playerId playerName : string) :
  player_ok (newPlayer playerId playerName).
Proof. unfold player_ok. simpl. lia. Qed.

Lemma update_found_ok (playerId : string) (u : Player -> Player)
    (l : list Player) :
  (forall p, player_ok p -> player_ok (u p)) ->
  Forall player_ok l -> Forall player_ok (update_found playerId u l).
Proof.
  intros Hu. induction 1 as [|p l Hp HF IH]; simpl; [constructor |].
  destruct (bool_decide (player_id p = playerId)); constructor; auto.
Qed.

Lemma find_id_ok (playerId : string) (l : list Player) (p : Player) :
  Forall player_ok l -> find_id playerId l = Some p -> player_ok p.
Proof.
  unfold find_id. intros HF Hf. apply find_some in Hf as [Hin _].
  rewrite List.Forall_forall in HF. auto.
Qed.

Lemma filter_ok (f : Player -> bool) (l : list Player) :
  Forall player_ok l -> Forall player_ok (List.filter f l).
Proof.
  induction 1 as [|p l Hp _ IH]; simpl; [constructor |].
  destruct (f p); [constructor |]; assumption.
Qed.

Lemma alt_handle_session_inv (st : State) (req : Request) :
  map_Forall session_inv (games st) ->
  map_Forall session_inv (games (state_after (handle st req))).
Proof.
  intros Hinv.
  destruct req as [p n r | g p n | | g p a | g p d r | g p | n]; simpl.
  - unfold create_game. rewrite AltFacts.broadcastAvailableGames_state. simpl.
    apply map_Forall_insert_2; [| exact Hinv].
    split; [reflexivity |]. simpl.
    split; [constructor; [apply newPlayer_ok | constructor] |].
    split; [lia |]. split; [discriminate | auto].
  - unfold join_game. destruct (games st !! g) as [game|] eqn:Hg; [| exact Hinv].
    case_bool_decide as Hlen; [exact Hinv |].
    rewrite AltFacts.broadcastAvailableGames_state. simpl.
    apply map_Forall_insert_2; [| exact Hinv].
    destruct (Hinv _ _ Hg) as (Hid & Hok & Hl & _).
    split; [exact Hid |]. simpl. rewrite length_app. simpl.
    split; [apply Forall_app; split;
            [exact Hok | constructor; [apply newPlayer_ok | constructor]] |].
    split; [lia |]. split; discriminate.
  - unfold get_available_games. destruct (availableGames _); exact Hinv.
  - unfold submit_attack. destruct (games st !! g) as [game|] eqn:Hg; [| exact Hinv].
    destruct (Hinv _ _ Hg) as (Hid & Hok & Hl & Hnb & Hwait).
    destruct (find_id p (players game)); [| exact Hinv].
    destruct (bool_decide (currentTurn game <> Some p)) eqn:Hturn;
      [exact Hinv |].
    apply bool_decide_eq_false in Hturn. apply dec_stable in Hturn.
    destruct (bool_decide (currentTurnType game <> ATTACK)); [exact Hinv |].
    assert (Hnw : phase game <> waiting).
    { intros Hph. destruct (Hwait Hph) as (_ & Ht & _). congruence. }
    assert (Hok' : Forall player_ok
                     (update_found p (set_attackType (Some a)) (players game))).
    { apply update_found_ok; [| exact Hok]. intros q Hq. exact Hq. }
    cbv zeta. simpl. destruct (find_other p _); simpl;
      (apply map_Forall_insert_2; [| exact Hinv]);
      (split; [exact Hid |]); simpl;
      rewrite AltFacts.alt_update_found_length;
      (split; [exact Hok' |]); (split; [exact Hl |]);
      (split; [exact Hnb | intros; contradiction]).
  - unfold submit_defense. destruct (games st !! g) as [game|] eqn:Hg; [| exact Hinv].
    destruct (Hinv _ _ Hg) as (Hid & Hok & Hl & Hnb & Hwait).
    destruct (find_id p (players game)) as [defender|] eqn:Hdef; [| exact Hinv].
    destruct (pendingAttack game) as [pending|] eqn:Hpend; [| exact Hinv].
    assert (Hnw : phase game <> waiting).
    { intros Hph. destruct (Hwait Hph) as (_ & _ & Hp & _). congruence. }
    pose proof (find_id_ok _ _ _ Hok Hdef) as (_ & _ & _ & Hhd).
    assert (Hok1 : Forall player_ok
                     (update_found p (set_defenseType (Some d)) (players game))).
    { apply update_found_ok; [| exact Hok]. intros q Hq. exact Hq. }
    cbv zeta. destruct (find_id (pending_playerId pending) _) as [attacker|];
      simpl.
    2:{ apply map_Forall_insert_2; [| exact Hinv].
        split; [exact Hid |]. simpl. rewrite AltFacts.alt_update_found_length.
        split; [exact Hok1 |]. split; [exact Hl |].
        split; [exact Hnb | intros; contradiction]. }
    match goal with
    | |- context [set_health ?h] =>
        assert (Hok2 : Forall player_ok
                         (update_found p (set_health h)
                            (update_found p (set_defenseType (Some d))
                               (players game))))
    end.
    { apply update_found_ok; [| exact Hok1].
      intros q (Ha & Hd & Hm & Hh). unfold player_ok. simpl.
      unfold damage. repeat split; try assumption; lia. }
    destruct (bool_decide _); simpl;
      (apply map_Forall_insert_2; [| exact Hinv]);
      (split; [exact Hid |]); simpl;
      rewrite !AltFacts.alt_update_found_length;
      (split; [exact Hok2 |]); (split; [exact Hl |]).
    + split; discriminate.
    + split; [exact Hnb | intros; contradiction].
  - unfold leave_game. destruct (games st !! g) as [game|] eqn:Hg; [| exact Hinv].
    destruct (Hinv _ _ Hg) as (Hid & Hok & Hl & Hnb & Hwait).
    cbv zeta. simpl.
    pose proof (filter_length_le
                  (fun q => bool_decide (player_id q <> p)) (players game)) as Hle.
    pose proof (filter_ok (fun q => bool_decide (player_id q <> p)) _ Hok) as Hok'.
    destruct (List.filter _ _) as [|o rest] eqn:Hf;
      rewrite AltFacts.broadcastAvailableGames_state; simpl.
    + apply map_Forall_delete. exact Hinv.
    + apply map_Forall_insert_2; [| exact Hinv].
      split; [exact Hid |]. simpl in *.
      split; [exact Hok' |]. split; [lia |]. split; [exact Hnb |].
      intros Hph. destruct (Hwait Hph) as (Hone & Hrest).
      split; [lia | exact Hrest].
  - unfold fire_timer. destruct (timers st !! n) as [t|]; [| exact Hinv]. simpl.
    destruct (action t); simpl; try exact Hinv.
    apply map_Forall_delete. exact Hinv.
Qed.

Lemma alt_reachable_session_inv (st : State) :
  reachable st -> map_Forall session_inv (games st).
Proof.
  induction 1 as [| st req _ IH].
  - apply map_Forall_empty.
  - apply alt_handle_session_inv. exact IH.
Qed.



Lemma alt_steps_reachable (reqs : list Request) (st : State) :
  reachable st -> reachable (steps st reqs).
Proof.
  revert st. induction reqs as [|req reqs IH]; intros st Hst; [exact Hst |].
  apply (IH (state_after (handle st req))). constructor. exact Hst.
Qed.

Lemma altPaired_reachable : reachable Scenario.altPaired.
Proof. exact (reachable_step _ _ (reachable_step _ _ reachable_init)). Qed.

Lemma altAttacked_reachable : reachable Scenario.altAttacked.
Proof. exact (reachable_step _ _ altPaired_reachable). Qed.

End AltInv.

(** ** The alternating variant: further properties *)

Module AltProps.
Import Alt.

(** X10. In every reachable state of the alternating server the session
    stored under a key carries that key as its id, has one or two players,
    each with attack 15, defense 5, maxHealth 100 and a health between 0 and
    100, and is never in phase [battle]; while it waits it has one player,
    no turn holder, no buffered attack and no winner. *)
Theorem session_shape_alt (st : State) (key : string) (g : Game) :
  reachable st -> games st !! key = Some g ->
  game_id g = key
  /\ (1 <= length (players g) <= 2)%nat
  /\ Forall (fun p => attack p = 15%Z /\ defense p = 5%Z /\ maxHealth p = 100%Z
                      /\ (0 <= health p <= 100)%Z) (players g)
  /\ phase g <> battle
  /\ (phase g = waiting ->
      length (players g) = 1%nat /\ currentTurn g = None
      /\ pendingAttack g = None /\ winner g = None).
Proof.
  intros Hr Hg.
  destruct (AltInv.alt_reachable_session_inv st Hr key g Hg)
    as (Hid & Hok & Hl & Hnb & Hwait).
  auto.
Qed.

Lemma session_shape_alt_witness :
  exists g, games Scenario.altAttacked !! "ABC123" = Some g
            /\ game_id g = "ABC123" /\ phase g <> battle.
Proof.
  eexists. split; [vm_compute; reflexivity |].
  destruct (session_shape_alt Scenario.altAttacked "ABC123" _
              AltInv.altAttacked_reachable ltac:(vm_compute; reflexivity))
    as (Hid & _ & _ & Hnb & _).
  auto.
Defined.



(** *** Writes through [find] *)

Lemma update_found_twice (playerId : string) (u1 u2 : Player -> Player)
    (l : list Player) :
  (forall p, player_id (u1 p) = player_id p) ->
  update_found playerId u2 (update_found playerId u1 l)
  = update_found playerId (fun p => u2 (u1 p)) l.
Proof.
  intros Hid. induction l as [|p l IH]; simpl; [reflexivity |].
  destruct (bool_decide (player_id p = playerId)) eqn:Hp; simpl.
  - rewrite Hid, Hp. reflexivity.
  - rewrite Hp, IH. reflexivity.
Qed.

Lemma update_found_related (R : Player -> Player -> Prop) (playerId : string)
    (u : Player -> Player) (l : list Player) (q : Player) :
  find_id playerId l = Some q -> R q (u q) -> (forall p, R p p) ->
  Forall2 R l (update_found playerId u l).
Proof.
  intros Hf Hq Hrefl.
  assert (Hsame : forall l0 : list Player, Forall2 R l0 l0)
    by (induction l0; constructor; auto).
  unfold find_id in Hf. induction l as [|p l IH]; simpl in *; [constructor |].
  destruct (bool_decide (player_id p = playerId)).
  - injection Hf as ->. constructor; auto.
  - constructor; auto.
Qed.

Lemma find_id_update_found (playerId : string) (u : Player -> Player)
    (l : list Player) :
  (forall p, player_id (u p) = player_id p) ->
  find_id playerId (update_found playerId u l) = u <$> find_id playerId l.
Proof.
  intros Hid. unfold find_id. induction l as [|p l IH]; simpl; [reflexivity |].
  destruct (bool_decide (player_id p = playerId)) eqn:Hp; simpl.
  - rewrite Hid, Hp. reflexivity.
  - rewrite Hp. exact IH.
Qed.

Lemma update_found_health_other (playerId : string) (u : Player -> Player)
    (l : list Player) :
  (forall p, health (u p) = health p) ->
  health <$> update_found playerId u l = health <$> l.
Proof.
  intros Hu. induction l as [|p l IH]; simpl; [reflexivity |].
  destruct (bool_decide (player_id p = playerId)); simpl;
    [rewrite Hu; reflexivity | f_equal; exact IH].
Qed.

(** X12. A [submit_defense], whatever its outcome, keeps the session stored
    and its players in place, and writes at most one of them, the first one
    with the submitter's id: of that player only the defense selection and
    the health can change, and the health never rises.  Only the defender's
    health can change in a resolution. *)
Theorem submit_defense_touches_defender_only (st : State)
    (gameId playerId defenseType : string) (rnd : Q) (g : Game) :
  games st !! gameId = Some g ->
  exists g',
    games (state_after (submit_defense st gameId playerId defenseType rnd))
      !! gameId = Some g'
    /\ Forall2 (defended playerId) (players g) (players g').
Proof.
  intros Hg.
  assert (Hrefl : forall p, defended playerId p p).
  { intros p. unfold defended. repeat split; auto; lia. }
  assert (Hsame : forall l : list Player, Forall2 (defended playerId) l l)
    by (induction l; constructor; auto).
  unfold submit_defense. rewrite Hg.
  destruct (find_id playerId (players g)) as [defender|] eqn:Hdef;
    [| eauto].
  destruct (pendingAttack g) as [pending|]; [| eauto].
  cbv zeta.
  destruct (find_id (pending_playerId pending) (players g)) as [attacker|].
  - assert (H2 : forall h,
               (0 <= h)%Z -> ((0 <= health defender)%Z -> (h <= health defender)%Z) ->
               Forall2 (defended playerId) (players g)
                 (update_found playerId (set_health h)
                    (update_found playerId (set_defenseType (Some defenseType))
                       (players g)))).
    { intros h Hh0 Hh. rewrite update_found_twice by reflexivity.
      apply (update_found_related _ _ _ _ defender Hdef); [| exact Hrefl].
      unfold defended. simpl. repeat split; auto.
      intros Hne. destruct Hne. eapply AltFacts.find_id_Some. exact Hdef. }
    destruct (bool_decide _); simpl;
      (eexists; split; [apply lookup_insert_eq |]); simpl;
      apply H2; unfold damage; lia.
  - simpl. eexists. split; [apply lookup_insert_eq |]. simpl.
    apply (update_found_related _ _ _ _ defender Hdef); [| exact Hrefl].
    unfold defended. simpl. repeat split; auto; try lia.
    intros Hne. destruct Hne. eapply AltFacts.find_id_Some. exact Hdef.
Qed.

Lemma submit_defense_touches_defender_only_witness :
  exists g',
    games (state_after
             (submit_defense Scenario.altAttacked "ABC123" "b" "scissors" 0))
      !! "ABC123" = Some g'
    /\ Forall2 (defended "b")
         [mkPlayer "a" "Ann" 100 100 15 5 (Some "rock") None;
          newPlayer "b" "Bob"] (players g').
Proof.
  exact (submit_defense_touches_defender_only Scenario.altAttacked "ABC123"
           "b" "scissors" 0
           (mkGame "ABC123"
              [mkPlayer "a" "Ann" 100 100 15 5 (Some "rock") None;
               newPlayer "b" "Bob"]
              (Some "b") DEFEND (Some (mkPendingAttack "a" "rock")) selection
              None
              ["Ann chose rock attack. Bob must choose a defense.";
               "Bob joined the game. Ann goes first with an attack!"])
           ltac:(vm_compute; reflexivity)).
Defined.

Lemma find_other_update_found (playerId : string) (u : Player -> Player)
    (l : list Player) :
  (forall p, player_id (u p) = player_id p) ->
  find_other playerId (update_found playerId u l) = None
  <-> find_other playerId l = None.
Proof.
  intros Hu. unfold find_other.
  induction l as [|p l IH]; simpl; [reflexivity |].
  destruct (bool_decide (player_id p = playerId)) eqn:Hp; simpl.
  - rewrite Hu. apply bool_decide_eq_true in Hp.
    rewrite !(bool_decide_eq_false_2 (player_id p <> playerId))
      by (intros Hc; apply Hc; exact Hp). reflexivity.
  - apply bool_decide_eq_false in Hp.
    rewrite !(bool_decide_eq_true_2 _ Hp). split; discriminate.
Qed.

(** X13. A [submit_attack] that passes the checks (member of the session,
    turn holder, attack mode) throws exactly when no player of the session
    has another id, for instance after the opponent left.  When it throws,
    nothing is sent, and the session has already been written: the attack
    is buffered and the turn still is the attacker's, so the same request
    throws again. *)
Theorem submit_attack_without_opponent (st : State)
    (gameId playerId attackType : string) (g : Game) (player : Player) :
  games st !! gameId = Some g ->
  find_id playerId (players g) = Some player ->
  currentTurn g = Some playerId -> currentTurnType g = ATTACK ->
  let r := submit_attack st gameId playerId attackType in
  (thrown r = None <-> is_Some (find_other playerId (players g)))
  /\ (find_other playerId (players g) = None ->
      thrown r = Some "TypeError" /\ emitted r = []
      /\ (exists g',
             games (state_after r) !! gameId = Some g'
             /\ pendingAttack g'
                = Some (mkPendingAttack playerId attackType)
             /\ currentTurn g' = Some playerId
             /\ currentTurnType g' = ATTACK)
      /\ thrown (submit_attack (state_after r) gameId playerId attackType)
         = Some "TypeError").
Proof.
  intros Hg Hf Hturn Hmode r. subst r.
  assert (Hkeep : forall (u : Player -> Player) (l : list Player),
             (forall p, player_id (u p) = player_id p) ->
             find_other playerId (update_found playerId u l) = None
             <-> find_other playerId l = None)
    by (intros; apply find_other_update_found; assumption).
  unfold submit_attack at 1 2 3 4. rewrite Hg, Hf.
  rewrite (bool_decide_eq_false_2 (currentTurn g <> Some playerId))
    by (intros Hc; apply Hc; exact Hturn).
  rewrite (bool_decide_eq_false_2 (currentTurnType g <> ATTACK))
    by (intros Hc; apply Hc; exact Hmode).
  cbv zeta. simpl.
  destruct (find_other playerId
              (update_found playerId (set_attackType (Some attackType))
                 (players g))) as [defender|] eqn:Ho.
  - simpl. split.
    + split; [intros _ | reflexivity].
      destruct (find_other playerId (players g)) eqn:Ho'; [eauto |].
      apply (Hkeep (set_attackType (Some attackType)) (players g)) in Ho';
        [congruence | reflexivity].
    + intros Hnone.
      apply (Hkeep (set_attackType (Some attackType)) (players g)) in Hnone;
        [congruence | reflexivity].
  - simpl. split.
    + split; [discriminate |]. intros [o Ho'].
      apply (Hkeep (set_attackType (Some attackType)) (players g)) in Ho;
        [congruence | reflexivity].
    + intros _. split; [reflexivity |]. split; [reflexivity |]. split.
      * eexists. split; [apply lookup_insert_eq |]. simpl.
        rewrite Hturn, Hmode. auto.
      * unfold submit_attack at 2. rewrite Hg, Hf.
        rewrite (bool_decide_eq_false_2 (currentTurn g <> Some playerId))
          by (intros Hc; apply Hc; exact Hturn).
        rewrite (bool_decide_eq_false_2 (currentTurnType g <> ATTACK))
          by (intros Hc; apply Hc; exact Hmode).
        cbv zeta. simpl. rewrite Ho. simpl.
        unfold submit_attack. simpl. rewrite lookup_insert_eq. simpl.
        rewrite (find_id_update_found playerId _ (players g)) by reflexivity.
        rewrite Hf. simpl.
        rewrite (bool_decide_eq_false_2 (currentTurn g <> Some playerId))
          by (intros Hc; apply Hc; exact Hturn).
        rewrite (bool_decide_eq_false_2 (currentTurnType g <> ATTACK))
          by (intros Hc; apply Hc; exact Hmode).
        simpl.
        rewrite (proj2 (Hkeep (set_attackType (Some attackType)) _
                          ltac:(reflexivity)) Ho).
        reflexivity.
Qed.

Lemma submit_attack_without_opponent_witness :
  thrown (submit_attack Scenario.altAlone "ABC123" "a" "rock")
  = Some "TypeError".
Proof.
  refine (proj1 (proj2 (submit_attack_without_opponent Scenario.altAlone
                          "ABC123" "a" "rock"
                          (mkGame "ABC123" [newPlayer "a" "Ann"] (Some "a")
                             ATTACK None selection None
                             ["Bob joined the game. Ann goes first with an attack!"])
                          (newPlayer "a" "Ann") _ _ _ _) _));
    try reflexivity.
Defined.

(** X14. A [submit_defense] from a member of the session, while an attack
    is buffered whose attacker is no longer among the players (the attacker
    left), throws after it has written the defender's defense selection:
    nothing is sent, no health changes, and the attack stays buffered. *)
Theorem submit_defense_attacker_gone (st : State)
    (gameId playerId defenseType : string) (rnd : Q)
    (g : Game) (defender : Player) (pending : PendingAttack) :
  games st !! gameId = Some g ->
  find_id playerId (players g) = Some defender ->
  pendingAttack g = Some pending ->
  find_id (pending_playerId pending) (players g) = None ->
  let r := submit_defense st gameId playerId defenseType rnd in
  thrown r = Some "TypeError" /\ emitted r = []
  /\ timers (state_after r) = timers st
  /\ exists g',
       games (state_after r) !! gameId = Some g'
       /\ find_id playerId (players g')
          = Some (set_defenseType (Some defenseType) defender)
       /\ health <$> players g' = health <$> players g
       /\ pendingAttack g' = Some pending
       /\ phase g' = phase g /\ winner g' = winner g.
Proof.
  intros Hg Hf Hp Ha r. subst r. unfold submit_defense.
  rewrite Hg, Hf, Hp. cbv zeta. rewrite Ha. simpl.
  repeat (split; [reflexivity |]).
  eexists. split; [apply lookup_insert_eq |]. simpl.
  rewrite find_id_update_found by reflexivity. rewrite Hf.
  rewrite update_found_health_other by reflexivity. auto.
Qed.

Lemma submit_defense_attacker_gone_witness :
  thrown (submit_defense Scenario.altAttackerGone "ABC123" "b" "paper" 0)
  = Some "TypeError".
Proof.
  refine (proj1 (submit_defense_attacker_gone Scenario.altAttackerGone
                   "ABC123" "b" "paper" 0
                   (mkGame "ABC123" [newPlayer "b" "Bob"] (Some "b") DEFEND
                      (Some (mkPendingAttack "a" "rock")) selection None
                      ["Ann chose rock attack. Bob must choose a defense.";
                       "Bob joined the game. Ann goes first with an attack!"])
                   (newPlayer "b" "Bob") (mkPendingAttack "a" "rock")
                   _ _ _ _)); reflexivity.
Defined.

(** X15. [submit_defense] does not check whose turn it is.  When the player
    who attacked answers the buffered attack, the attack is resolved
    against the attacker: the attacker's own health drops by the damage of
    the attack against the attacker's own defense stat, and when that takes
    it to 0 the game is over with the attacker as the winner. *)
Theorem attacker_can_defend_own_attack (st : State)
    (gameId playerId attackType defenseType : string) (rnd : Q)
    (g : Game) (player : Player) :
  games st !! gameId = Some g ->
  find_id playerId (players g) = Some player ->
  pendingAttack g = Some (mkPendingAttack playerId attackType) ->
  let dmg :=
    damage (attack player)
      (multiplier
         (getEffectivenessMultiplier (Some attackType) (Some defenseType)))
      (defense player) rnd in
  let r := submit_defense st gameId playerId defenseType rnd in
  thrown r = None
  /\ exists g' player',
       games (state_after r) !! gameId = Some g'
       /\ find_id playerId (players g') = Some player'
       /\ health player' = Z.max 0 (health player - dmg)
       /\ ((health player - dmg <= 0)%Z ->
           phase g' = game_over /\ winner g' = Some playerId)
       /\ ((0 < health player - dmg)%Z ->
           phase g' = phase g /\ winner g' = winner g
           /\ currentTurn g' = Some playerId /\ currentTurnType g' = ATTACK
           /\ pendingAttack g' = None).
Proof.
  intros Hg Hf Hp dmg r. subst r. unfold submit_defense.
  rewrite Hg, Hf, Hp. cbv zeta. simpl. rewrite Hf. fold dmg.
  pose proof (AltFacts.find_id_Some _ _ _ Hf) as Hid.
  destruct (bool_decide (Z.max 0 (health player - dmg) <= 0)%Z) eqn:Hz; simpl.
  - apply bool_decide_eq_true in Hz. split; [reflexivity |].
    eexists _, _. split; [apply lookup_insert_eq |]. simpl.
    rewrite update_found_twice by reflexivity.
    rewrite find_id_update_found by reflexivity. rewrite Hf. simpl.
    split; [reflexivity |]. split; [reflexivity |].
    split; [rewrite Hid; auto | intros; lia].
  - apply bool_decide_eq_false in Hz. split; [reflexivity |].
    eexists _, _. split; [apply lookup_insert_eq |]. simpl.
    rewrite update_found_twice by reflexivity.
    rewrite find_id_update_found by reflexivity. rewrite Hf. simpl.
    split; [reflexivity |]. split; [reflexivity |].
    split; [intros; lia | rewrite Hid; auto].
Qed.

Lemma attacker_can_defend_own_attack_witness :
  exists g',
    games (state_after
             (submit_defense Scenario.altSelfHit "ABC123" "a" "scissors" (4 # 5)))
      !! "ABC123" = Some g'
    /\ phase g' = game_over /\ winner g' = Some "a"
    /\ health <$> find_id "a" (players g') = Some 0%Z.
Proof.
  edestruct (attacker_can_defend_own_attack Scenario.altSelfHit "ABC123" "a"
               "rock" "scissors" (4 # 5))
    as (_ & g' & player' & Hg' & Hf' & Hh & Hover & _).
  - vm_compute. reflexivity.
  - reflexivity.
  - reflexivity.
  - exists g'. split; [exact Hg' |].
    destruct Hover as (Hph & Hw); [vm_compute; discriminate |].
    split; [exact Hph |]. split; [exact Hw |].
    rewrite Hf'. simpl. rewrite Hh. reflexivity.
Defined.

(** *** One exchange: an attack and its defense *)

Ltac run_handler :=
  unfold find_id, find_other; simpl;
  repeat (case_bool_decide; try congruence; try lia; simpl).

Lemma exchange_first_attacks (st : State)
    (gameId idA idB attackType defenseType : string) (rnd : Q)
    (g : Game) (pa pb : Player) :
  games st !! gameId = Some g ->
  players g = [pa; pb] ->
  player_id pa = idA -> player_id pb = idB -> idA <> idB ->
  currentTurn g = Some idA -> currentTurnType g = ATTACK ->
  let dmg :=
    damage (attack pa)
      (multiplier
         (getEffectivenessMultiplier (Some attackType) (Some defenseType)))
      (defense pb) rnd in
  let r1 := submit_attack st gameId idA attackType in
  let r := submit_defense (state_after r1) gameId idB defenseType rnd in
  thrown r1 = None /\ thrown r = None
  /\ exists g',
       games (state_after r) !! gameId = Some g'
       /\ players g'
          = [set_attackType (Some attackType) pa;
             set_health (Z.max 0 (health pb - dmg))
               (set_defenseType (Some defenseType) pb)]
       /\ ((0 < health pb - dmg)%Z ->
           currentTurn g' = Some idB /\ currentTurnType g' = ATTACK
           /\ pendingAttack g' = None
           /\ phase g' = phase g /\ winner g' = winner g)
       /\ ((health pb - dmg <= 0)%Z ->
           phase g' = game_over /\ winner g' = Some idA).
Proof.
  intros Hg Hp HidA HidB Hne Hturn Hmode dmg r1 r. subst r r1.
  destruct g as [gid0 ps t ty pend ph w lg]. simpl in *. subst ps t ty.
  destruct pa as [ia na ha ma aa da ca cda].
  destruct pb as [ib nb hb mb ab db cb cdb]. simpl in *. subst ia ib.
  assert (H1 : submit_attack st gameId idA attackType
               = mkResult
                   (mkState
                      (<[gameId :=
                           mkGame gid0
                             [mkPlayer idA na ha ma aa da (Some attackType) cda;
                              mkPlayer idB nb hb mb ab db cb cdb]
                             (Some idB) DEFEND
                             (Some (mkPendingAttack idA attackType)) ph w
                             ((na +:+ " chose " +:+ attackType +:+ " attack. "
                               +:+ nb +:+ " must choose a defense.") :: lg)]>
                         (games st)) (timers st))
                   [ToRoom gameId
                      (GameStateUpdate
                         (mkGame gid0
                            [mkPlayer idA na ha ma aa da (Some attackType) cda;
                             mkPlayer idB nb hb mb ab db cb cdb]
                            (Some idB) DEFEND
                            (Some (mkPendingAttack idA attackType)) ph w
                            ((na +:+ " chose " +:+ attackType +:+ " attack. "
                              +:+ nb +:+ " must choose a defense.") :: lg)))]
                   None).
  { unfold submit_attack. rewrite Hg. run_handler. reflexivity. }
  rewrite H1. simpl. split; [reflexivity |].
  unfold submit_defense. simpl. rewrite lookup_insert_eq. run_handler.
  - split; [reflexivity |]. eexists. split; [apply lookup_insert_eq |].
    simpl. split; [reflexivity |]. split; [intros; lia | auto].
  - split; [reflexivity |]. eexists. split; [apply lookup_insert_eq |].
    simpl. split; [reflexivity |]. split; [auto | intros; lia].
Qed.

Lemma exchange_second_attacks (st : State)
    (gameId idA idB attackType defenseType : string) (rnd : Q)
    (g : Game) (pa pb : Player) :
  games st !! gameId = Some g ->
  players g = [pb; pa] ->
  player_id pa = idA -> player_id pb = idB -> idA <> idB ->
  currentTurn g = Some idA -> currentTurnType g = ATTACK ->
  let dmg :=
    damage (attack pa)
      (multiplier
         (getEffectivenessMultiplier (Some attackType) (Some defenseType)))
      (defense pb) rnd in
  let r1 := submit_attack st gameId idA attackType in
  let r := submit_defense (state_after r1) gameId idB defenseType rnd in
  thrown r1 = None /\ thrown r = None
  /\ exists g',
       games (state_after r) !! gameId = Some g'
       /\ players g'
          = [set_health (Z.max 0 (health pb - dmg))
               (set_defenseType (Some defenseType) pb);
             set_attackType (Some attackType) pa]
       /\ ((0 < health pb - dmg)%Z ->
           currentTurn g' = Some idB /\ currentTurnType g' = ATTACK
           /\ pendingAttack g' = None
           /\ phase g' = phase g /\ winner g' = winner g)
       /\ ((health pb - dmg <= 0)%Z ->
           phase g' = game_over /\ winner g' = Some idA).
Proof.
  intros Hg Hp HidA HidB Hne Hturn Hmode dmg r1 r. subst r r1.
  destruct g as [gid0 ps t ty pend ph w lg]. simpl in *. subst ps t ty.
  destruct pa as [ia na ha ma aa da ca cda].
  destruct pb as [ib nb hb mb ab db cb cdb]. simpl in *. subst ia ib.
  assert (H1 : submit_attack st gameId idA attackType
               = mkResult
                   (mkState
                      (<[gameId :=
                           mkGame gid0
                             [mkPlayer idB nb hb mb ab db cb cdb;
                              mkPlayer idA na ha ma aa da (Some attackType) cda]
                             (Some idB) DEFEND
                             (Some (mkPendingAttack idA attackType)) ph w
                             ((na +:+ " chose " +:+ attackType +:+ " attack. "
                               +:+ nb +:+ " must choose a defense.") :: lg)]>
                         (games st)) (timers st))
                   [ToRoom gameId
                      (GameStateUpdate
                         (mkGame gid0
                            [mkPlayer idB nb hb mb ab db cb cdb;
                             mkPlayer idA na ha ma aa da (Some attackType) cda]
                            (Some idB) DEFEND
                            (Some (mkPendingAttack idA attackType)) ph w
                            ((na +:+ " chose " +:+ attackType +:+ " attack. "
                              +:+ nb +:+ " must choose a defense.") :: lg)))]
                   None).
  { unfold submit_attack. rewrite Hg. run_handler. reflexivity. }
  rewrite H1. simpl. split; [reflexivity |].
  unfold submit_defense. simpl. rewrite lookup_insert_eq. run_handler.
  - split; [reflexivity |]. eexists. split; [apply lookup_insert_eq |].
    simpl. split; [reflexivity |]. split; [intros; lia | auto].
  - split; [reflexivity |]. eexists. split; [apply lookup_insert_eq |].
    simpl. split; [reflexivity |]. split; [auto | intros; lia].
Qed.

(** X16. One exchange of the alternating server.  In a session of two
    players with distinct ids, in either order, where the attacker holds the
    turn in attack mode, the attacker's [submit_attack] followed by the
    other player's [submit_defense] does not throw and resolves the attack
    once: the attacker's record only gets its attack selection, the
    defender's health drops by the damage of that attack against the
    defender's defense, floored at 0; when the defender survives, the
    defender becomes the turn holder in attack mode with no attack buffered
    and phase and winner as before; otherwise the game is over and the
    attacker is the winner. *)
Theorem exchange_resolves_once (st : State)
    (gameId idA idB attackType defenseType : string) (rnd : Q)
    (g : Game) (pa pb : Player) :
  games st !! gameId = Some g ->
  players g = [pa; pb] \/ players g = [pb; pa] ->
  player_id pa = idA -> player_id pb = idB -> idA <> idB ->
  currentTurn g = Some idA -> currentTurnType g = ATTACK ->
  let dmg :=
    damage (attack pa)
      (multiplier
         (getEffectivenessMultiplier (Some attackType) (Some defenseType)))
      (defense pb) rnd in
  let r1 := submit_attack st gameId idA attackType in
  let r := submit_defense (state_after r1) gameId idB defenseType rnd in
  thrown r1 = None /\ thrown r = None
  /\ exists g',
       games (state_after r) !! gameId = Some g'
       /\ length (players g') = 2%nat
       /\ find_id idA (players g') = Some (set_attackType (Some attackType) pa)
       /\ find_id idB (players g')
          = Some (set_health (Z.max 0 (health pb - dmg))
                    (set_defenseType (Some defenseType) pb))
       /\ ((0 < health pb - dmg)%Z ->
           currentTurn g' = Some idB /\ currentTurnType g' = ATTACK
           /\ pendingAttack g' = None
           /\ phase g' = phase g /\ winner g' = winner g)
       /\ ((health pb - dmg <= 0)%Z ->
           phase g' = game_over /\ winner g' = Some idA).
Proof.
  intros Hg [Hp | Hp] HidA HidB Hne Hturn Hmode dmg r1 r.
  - destruct (exchange_first_attacks st gameId idA idB attackType defenseType
                rnd g pa pb Hg Hp HidA HidB Hne Hturn Hmode)
      as (Ht1 & Ht & g' & Hg' & Hps & Hlive & Hdead).
    split; [exact Ht1 |]. split; [exact Ht |].
    exists g'. split; [exact Hg' |]. rewrite Hps.
    split; [reflexivity |]. unfold find_id. simpl. rewrite HidA, HidB.
    rewrite (bool_decide_eq_true_2 (idA = idA)) by reflexivity.
    rewrite (bool_decide_eq_false_2 (idA = idB)) by exact Hne.
    rewrite (bool_decide_eq_true_2 (idB = idB)) by reflexivity.
    auto.
  - destruct (exchange_second_attacks st gameId idA idB attackType defenseType
                rnd g pa pb Hg Hp HidA HidB Hne Hturn Hmode)
      as (Ht1 & Ht & g' & Hg' & Hps & Hlive & Hdead).
    split; [exact Ht1 |]. split; [exact Ht |].
    exists g'. split; [exact Hg' |]. rewrite Hps.
    split; [reflexivity |]. unfold find_id. simpl. rewrite HidA, HidB.
    rewrite (bool_decide_eq_true_2 (idB = idB)) by reflexivity.
    rewrite (bool_decide_eq_false_2 (idB = idA)) by congruence.
    rewrite (bool_decide_eq_true_2 (idA = idA)) by reflexivity.
    auto.
Qed.

Lemma exchange_resolves_once_witness :
  exists g',
    games
      (state_after
         (submit_defense
            (state_after (submit_attack Scenario.altPaired "ABC123" "a" "rock"))
            "ABC123" "b" "scissors" 0))
      !! "ABC123" = Some g'
    /\ health <$> find_id "b" (players g') = Some 75%Z
    /\ currentTurn g' = Some "b".
Proof.
  destruct (exchange_resolves_once Scenario.altPaired "ABC123" "a" "b" "rock"
              "scissors" 0
              (mkGame "ABC123" [newPlayer "a" "Ann"; newPlayer "b" "Bob"]
                 (Some "a") ATTACK None selection None
                 ["Bob joined the game. Ann goes first with an attack!"])
              (newPlayer "a" "Ann") (newPlayer "b" "Bob"))
    as (_ & _ & g' & Hg' & _ & _ & Hb & Hlive & _).
  - vm_compute. reflexivity.
  - left. reflexivity.
  - reflexivity.
  - reflexivity.
  - discriminate.
  - reflexivity.
  - reflexivity.
  - exists g'. split; [exact Hg' |]. rewrite Hb. split; [reflexivity |].
    apply Hlive. vm_compute. reflexivity.
Defined.

End AltProps.

(** ** Properties shared by the two servers *)

Lemma mapM_In {A B : Type} (f : A -> option B) (xs : list A) (ys : list B)
    (y : B) :
  mapM f xs = Some ys -> (In y ys <-> exists x, In x xs /\ f x = Some y).
Proof.
  intros HM. apply mapM_Some in HM.
  induction HM as [|x y0 xs ys Hxy _ IH]; simpl.
  - split; [contradiction | intros (x & [] & _)].
  - rewrite IH. split.
    + intros [-> | (x' & Hin & Hr)]; eauto.
    + intros (x' & [-> | Hin] & Hr); [left; congruence | eauto].
Qed.

(** X17. The listing of open sessions, as [get_available_games] and
    [broadcastAvailableGames] build it, holds the entries (id, host name,
    player count) of the stored sessions that are waiting with fewer than
    two players, and no other entry: a session that is full or past the
    waiting phase is never listed, and the host named is the first
    player. *)
Theorem availableGames_lists_waiting_sessions :
  (forall (m : gmap string Alt.Game) (l : list (string * string * nat))
          (entry : string * string * nat),
      Alt.availableGames m = Some l ->
      (In entry l
       <-> exists k g host,
             m !! k = Some g /\ Alt.phase g = waiting
             /\ (length (Alt.players g) < 2)%nat
             /\ head (Alt.players g) = Some host
             /\ entry = (Alt.game_id g, Alt.player_name host,
                         length (Alt.players g))))
  /\ (forall (st : Simul.State) (l : list (string * string * nat))
             (entry : string * string * nat),
      Simul.availableGames st = Some l ->
      (In entry l
       <-> exists k g host,
             Simul.games st !! k = Some g /\ Simul.phase g = waiting
             /\ (length (Simul.players g) < 2)%nat
             /\ head (Simul.players g) = Some host
             /\ entry = (Simul.game_id g, Simul.player_name host,
                         length (Simul.players g)))).
Proof.
  split.
  - intros m l entry HM. unfold Alt.availableGames in HM.
    rewrite (mapM_In _ _ _ entry HM). split.
    + intros (g & Hin & Hf). apply filter_values_In in Hin as [Hb (k & Hk)].
      apply andb_true_iff in Hb as [Hph Hlen].
      apply bool_decide_eq_true in Hph, Hlen.
      destruct (head (Alt.players g)) as [host|] eqn:Hh; [| discriminate].
      injection Hf as <-. exists k, g, host. auto.
    + intros (k & g & host & Hk & Hph & Hlen & Hh & ->).
      exists g. split; [| rewrite Hh; reflexivity].
      apply filter_values_In. split; [| eauto].
      apply andb_true_iff. split; apply bool_decide_eq_true; assumption.
  - intros st l entry HM. unfold Simul.availableGames in HM.
    rewrite (mapM_In _ _ _ entry HM). split.
    + intros (g & Hin & Hf). apply filter_values_In in Hin as [Hb (k & Hk)].
      apply andb_true_iff in Hb as [Hph Hlen].
      apply bool_decide_eq_true in Hph, Hlen.
      destruct (head (Simul.players g)) as [host|] eqn:Hh; [| discriminate].
      injection Hf as <-. exists k, g, host. auto.
    + intros (k & g & host & Hk & Hph & Hlen & Hh & ->).
      exists g. split; [| rewrite Hh; reflexivity].
      apply filter_values_In. split; [| eauto].
      apply andb_true_iff. split; apply bool_decide_eq_true; assumption.
Qed.

Lemma availableGames_lists_waiting_sessions_witness :
  In ("ABC123", "Ann", 1%nat) [("ABC123", "Ann", 1%nat)]
  <-> exists k g host,
        Alt.games Scenario.altHosted !! k = Some g /\ Alt.phase g = waiting
        /\ (length (Alt.players g) < 2)%nat
        /\ head (Alt.players g) = Some host
        /\ ("ABC123", "Ann", 1%nat)
           = (Alt.game_id g, Alt.player_name host, length (Alt.players g)).
Proof.
  apply (proj1 availableGames_lists_waiting_sessions
           (Alt.games Scenario.altHosted)).
  vm_compute. reflexivity.
Defined.

(** X18. Creating a session and joining it: whatever the registry held,
    after a [create_game] and a [join_game] on the id it generated the
    session stored under that id has the host and the joiner, in this
    order, both with the stats of a new player, phase [selection], the host
    as turn holder and no winner; the sessions under other ids are as
    before; and one more [join_game] on that id is answered with
    "Game is full". *)
Theorem create_then_join
    (hostId hostName r36 joinerId joinerName : string) :
  (forall st : Simul.State,
      let gameId := generateGameId r36 in
      let st1 := Simul.state_after (Simul.create_game st hostId hostName r36) in
      let r := Simul.join_game st1 gameId joinerId joinerName in
      Simul.thrown r = None
      /\ Simul.games (Simul.state_after r) !! gameId
         = Some (Simul.mkGame gameId
                   [Simul.newPlayer hostId hostName;
                    Simul.newPlayer joinerId joinerName]
                   (Some hostId) selection None
                   [joinerName +:+ " joined the game. " +:+ hostName
                    +:+ " goes first!"])
      /\ (forall k, k <> gameId ->
            Simul.games (Simul.state_after r) !! k = Simul.games st !! k)
      /\ forall thirdId thirdName,
           Simul.join_game (Simul.state_after r) gameId thirdId thirdName
           = Simul.mkResult (Simul.state_after r)
               [Simul.ToSocket (Simul.ErrorMsg "Game is full")] None)
  /\ (forall st : Alt.State,
      let gameId := generateGameId r36 in
      let st1 := Alt.state_after (Alt.create_game st hostId hostName r36) in
      let r := Alt.join_game st1 gameId joinerId joinerName in
      Alt.games (Alt.state_after r) !! gameId
      = Some (Alt.mkGame gameId
                [Alt.newPlayer hostId hostName;
                 Alt.newPlayer joinerId joinerName]
                (Some hostId) Alt.ATTACK None selection None
                [joinerName +:+ " joined the game. " +:+ hostName
                 +:+ " goes first with an attack!"])
      /\ (forall k, k <> gameId ->
            Alt.games (Alt.state_after r) !! k = Alt.games st !! k)
      /\ forall thirdId thirdName,
           Alt.join_game (Alt.state_after r) gameId thirdId thirdName
           = Alt.mkResult (Alt.state_after r)
               [Alt.ToSocket (Alt.ErrorMsg "Game is full")] None).
Proof.
  split.
  - intros st gameId st1 r.
    assert (Hr : r = Simul.mkResult
                       (Simul.mkState
                          (<[gameId :=
                               Simul.mkGame gameId
                                 [Simul.newPlayer hostId hostName;
                                  Simul.newPlayer joinerId joinerName]
                                 (Some hostId) selection None
                                 [joinerName +:+ " joined the game. "
                                  +:+ hostName +:+ " goes first!"]]>
                             (<[gameId :=
                                  Simul.mkGame gameId
                                    [Simul.newPlayer hostId hostName] None
                                    waiting None
                                    ["Waiting for opponent to join..."]]>
                                (Simul.games st)))
                          (Simul.timers st))
                       [Simul.ToRoom gameId
                          (Simul.GameStateUpdate
                             (Simul.mkGame gameId
                                [Simul.newPlayer hostId hostName;
                                 Simul.newPlayer joinerId joinerName]
                                (Some hostId) selection None
                                [joinerName +:+ " joined the game. "
                                 +:+ hostName +:+ " goes first!"]));
                        Simul.ToSocket (Simul.GameJoined gameId)] None).
    { subst r st1. unfold Simul.join_game, Simul.create_game. simpl.
      fold gameId. rewrite lookup_insert_eq. simpl.
      try (rewrite bool_decide_eq_false_2 by (simpl; lia)). reflexivity. }
    rewrite Hr. simpl.
    split; [reflexivity |]. split; [apply lookup_insert_eq |]. split.
    + intros k Hk. rewrite !lookup_insert_ne by congruence. reflexivity.
    + intros thirdId thirdName. unfold Simul.join_game. simpl.
      rewrite lookup_insert_eq. simpl.
      try (rewrite bool_decide_eq_true_2 by (simpl; lia)). reflexivity.
  - intros st gameId st1 r.
    assert (Hr : Alt.state_after r
                 = Alt.mkState
                     (<[gameId :=
                          Alt.mkGame gameId
                            [Alt.newPlayer hostId hostName;
                             Alt.newPlayer joinerId joinerName]
                            (Some hostId) Alt.ATTACK None selection None
                            [joinerName +:+ " joined the game. "
                             +:+ hostName +:+ " goes first with an attack!"]]>
                        (<[gameId :=
                             Alt.mkGame gameId
                               [Alt.newPlayer hostId hostName] None Alt.ATTACK
                               None waiting None
                               ["Waiting for opponent to join..."]]>
                           (Alt.games st)))
                     (Alt.timers st ++ [mkTimer 500 (EmitGameState gameId)])).
    { subst r st1. unfold Alt.create_game.
      rewrite AltFacts.broadcastAvailableGames_state.
      unfold Alt.join_game. simpl. fold gameId.
      rewrite lookup_insert_eq. simpl.
      try (rewrite bool_decide_eq_false_2 by (simpl; lia)).
      rewrite AltFacts.broadcastAvailableGames_state. reflexivity. }
    rewrite Hr. simpl.
    split; [apply lookup_insert_eq |]. split.
    + intros k Hk. rewrite !lookup_insert_ne by congruence. reflexivity.
    + intros thirdId thirdName. unfold Alt.join_game. simpl.
      rewrite lookup_insert_eq. simpl.
      try (rewrite bool_decide_eq_true_2 by (simpl; lia)). reflexivity.
Qed.

Lemma create_then_join_witness :
  Simul.players <$> (Simul.games Scenario.paired !! "ABC123")
  = Some [Simul.newPlayer "a" "Ann"; Simul.newPlayer "b" "Bob"]
  /\ Simul.join_game Scenario.paired "ABC123" "c" "Cy"
     = Simul.mkResult Scenario.paired
         [Simul.ToSocket (Simul.ErrorMsg "Game is full")] None.
Proof.
  destruct (proj1 (create_then_join "a" "Ann" "0.abc123xyz" "b" "Bob")
              Simul.init) as (_ & Hg & _ & Hfull).
  split.
  - change (Simul.games Scenario.paired !! "ABC123") with
      (Simul.games
         (Simul.state_after
            (Simul.join_game
               (Simul.state_after
                  (Simul.create_game Simul.init "a" "Ann" "0.abc123xyz"))
               (generateGameId "0.abc123xyz") "b" "Bob")) !! "ABC123").
    change "ABC123" with (generateGameId "0.abc123xyz") at 1.
    rewrite Hg. reflexivity.
  - exact (Hfull "c" "Cy").
Defined.





Lemma filter_keeps_all {A : Type} (f : A -> bool) (l : list A) :
  Forall (fun x => f x = true) l -> List.filter f l = l.
Proof.
  induction 1 as [|x l Hx _ IH]; simpl; [reflexivity |].
  rewrite Hx, IH. reflexivity.
Qed.

(** X21. A [leave_game] that names a player who is not in the session
    still ends it for the others: the stored session is unchanged, but the
    room is sent a copy of it marked [game_over] with the first player as
    winner and "Opponent left the game." at the head of the log, and the
    deletion of the session is scheduled 5000 ms later. *)
Theorem leave_game_by_outsider :
  (forall (st : Simul.State) (gameId playerId : string) (g : Simul.Game)
          (first : Simul.Player) (rest : list Simul.Player),
      Simul.games st !! gameId = Some g ->
      Simul.players g = first :: rest ->
      Forall (fun p => Simul.player_id p <> playerId) (Simul.players g) ->
      Simul.leave_game st gameId playerId
      = Simul.mkResult
          (Simul.mkState (Simul.games st)
             (Simul.timers st ++ [mkTimer 5000 (DeleteGame gameId)]))
          [Simul.ToRoom gameId
             (Simul.GameStateUpdate
                (Simul.mkGame (Simul.game_id g) (Simul.players g)
                   (Simul.currentTurn g) game_over
                   (Some (Simul.player_id first))
                   ("Opponent left the game." :: Simul.gameLog g)))]
          None)
  /\ (forall (st : Alt.State) (gameId playerId : string) (g : Alt.Game)
             (first : Alt.Player) (rest : list Alt.Player),
      Alt.games st !! gameId = Some g ->
      Alt.players g = first :: rest ->
      Forall (fun p => Alt.player_id p <> playerId) (Alt.players g) ->
      let r := Alt.leave_game st gameId playerId in
      Alt.state_after r
      = Alt.mkState (Alt.games st)
          (Alt.timers st ++ [mkTimer 5000 (DeleteGame gameId)])
      /\ exists more,
           Alt.emitted r
           = Alt.ToRoom gameId
               (Alt.GameStateUpdate
                  (Alt.mkGame (Alt.game_id g) (Alt.players g)
                     (Alt.currentTurn g) (Alt.currentTurnType g)
                     (Alt.pendingAttack g) game_over
                     (Some (Alt.player_id first))
                     ("Opponent left the game." :: Alt.gameLog g))) :: more).
Proof.
  split.
  - intros st gameId playerId g first rest Hg Hp Hout.
    unfold Simul.leave_game. rewrite Hg.
    rewrite (proj2 (SimulFacts.find_id_None playerId (Simul.players g)) Hout).
    assert (Hfo : Simul.find_other playerId (Simul.players g) = Some first).
    { rewrite Hp in *. inversion Hout as [|? ? Hfirst _]; subst.
      unfold Simul.find_other. simpl.
      rewrite (bool_decide_eq_true_2 _ Hfirst). reflexivity. }
    rewrite Hfo. reflexivity.
  - intros st gameId playerId g first rest Hg Hp Hout r. subst r.
    assert (Hkeep : List.filter
                      (fun p => bool_decide (Alt.player_id p <> playerId))
                      (Alt.players g) = first :: rest).
    { rewrite <- Hp. apply filter_keeps_all.
      eapply Forall_impl; [exact Hout |]. intros p Hne.
      apply bool_decide_eq_true. exact Hne. }
    destruct (AltFacts.leave_game_remaining st gameId playerId g first rest
                Hg Hkeep) as (Hst & more & Hem).
    rewrite Hst, Hem. rewrite <- Hp. split.
    + f_equal. apply insert_id. rewrite Hg. f_equal.
      destruct g; reflexivity.
    + exists more. reflexivity.
Qed.

Lemma leave_game_by_outsider_witness :
  Simul.timers
    (Simul.state_after (Simul.leave_game Scenario.paired "ABC123" "zed"))
  = [mkTimer 5000 (DeleteGame "ABC123")]
  /\ Alt.games (Alt.state_after (Alt.leave_game Scenario.altHosted "ABC123" "zed"))
     = Alt.games Scenario.altHosted.
Proof.
  destruct leave_game_by_outsider as [HS HA]. split.
  - rewrite (HS Scenario.paired "ABC123" "zed"
               (Simul.mkGame "ABC123"
                  [Simul.newPlayer "a" "Ann"; Simul.newPlayer "b" "Bob"]
                  (Some "a") selection None
                  ["Bob joined the game. Ann goes first!"])
               (Simul.newPlayer "a" "Ann") [Simul.newPlayer "b" "Bob"]).
    + reflexivity.
    + vm_compute. reflexivity.
    + reflexivity.
    + repeat constructor; simpl; discriminate.
  - destruct (HA Scenario.altHosted "ABC123" "zed"
                (Alt.mkGame "ABC123" [Alt.newPlayer "a" "Ann"] None Alt.ATTACK
                   None waiting None ["Waiting for opponent to join..."])
                (Alt.newPlayer "a" "Ann") []) as (Hst & _).
    + vm_compute. reflexivity.
    + reflexivity.
    + repeat constructor; simpl; discriminate.
    + rewrite Hst. reflexivity.
Defined.

Ltac only_error Hin :=
  simpl in Hin;
  repeat match type of Hin with
         | _ \/ _ => destruct Hin as [Hin | Hin]
         end;
  try contradiction; try discriminate Hin;
  try (injection Hin as <-; reflexivity).

Lemma processBattle_sends_to_room (game : Simul.Game) (rnd1 rnd2 : Q)
    (p : Simul.Payload) :
  ~ In (Simul.ToSocket p)
      (Simul.battle_emitted (Simul.processBattle game rnd1 rnd2)).
Proof.
  unfold Simul.processBattle.
  destruct (Simul.players game) as [|p1 [|p2 rest]]; simpl; try tauto.
  destruct (bool_decide _ || bool_decide _); simpl; intros Hin; only_error Hin.
Qed.

Lemma broadcastAvailableGames_emitted (st : Alt.State) (sent : list Alt.Emit)
    (e : Alt.Emit) :
  In e (Alt.emitted (Alt.broadcastAvailableGames st sent)) ->
  In e sent \/ exists l, e = Alt.ToAll (Alt.AvailableGames l).
Proof.
  unfold Alt.broadcastAvailableGames.
  destruct (Alt.availableGames _); simpl; [| auto].
  rewrite in_app_iff. simpl. intros [Hin | [<- | []]]; eauto.
Qed.

Ltac alt_cases st req Hin :=
  destruct req as [p n r | k p n | | k p a | k p d r | k p | n]; simpl in Hin;
  [ unfold Alt.create_game in Hin;
    apply broadcastAvailableGames_emitted in Hin as [Hin | (listing & Hin)]
  | unfold Alt.join_game in Hin;
    destruct (Alt.games st !! k);
    [ destruct (bool_decide _);
      [| apply broadcastAvailableGames_emitted in Hin as [Hin | (listing & Hin)]] |]
  | unfold Alt.get_available_games in Hin;
    destruct (Alt.availableGames _)
  | unfold Alt.submit_attack in Hin;
    destruct (Alt.games st !! k);
    [ destruct (Alt.find_id p _);
      [ destruct (bool_decide _ || bool_decide _);
        [| cbv zeta in Hin; destruct (Alt.find_other p _)] |] |]
  | unfold Alt.submit_defense in Hin;
    destruct (Alt.games st !! k);
    [ destruct (Alt.find_id p _);
      [ destruct (Alt.pendingAttack _) as [pending|];
        [ cbv zeta in Hin;
          destruct (Alt.find_id (Alt.pending_playerId pending) _);
          [ destruct (bool_decide _) |] |] |] |]
  | unfold Alt.leave_game in Hin;
    destruct (Alt.games st !! k);
    [ cbv zeta in Hin; simpl in Hin; destruct (List.filter _ _);
      apply broadcastAvailableGames_emitted in Hin as [Hin | (listing & Hin)] |]
  | ].

(** X22. An error is always the whole answer.  Whenever a handler of
    either server sends an error message to the requester, that message is
    the only one it sends, the handler does not throw, and the state is
    left exactly as it was; and error messages are sent to the requester's
    socket only, never to a room or to everybody. *)
Theorem error_reply_is_alone :
  (forall (st : Simul.State) (req : Simul.Request) (message : string),
      In (Simul.ToSocket (Simul.ErrorMsg message))
        (Simul.emitted (Simul.handle st req)) ->
      Simul.handle st req
      = Simul.mkResult st [Simul.ToSocket (Simul.ErrorMsg message)] None)
  /\ (forall (st : Simul.State) (req : Simul.Request) (room message : string),
      ~ In (Simul.ToRoom room (Simul.ErrorMsg message))
          (Simul.emitted (Simul.handle st req)))
  /\ (forall (st : Alt.State) (req : Alt.Request) (message : string),
      In (Alt.ToSocket (Alt.ErrorMsg message))
        (Alt.emitted (Alt.handle st req)) ->
      Alt.handle st req
      = Alt.mkResult st [Alt.ToSocket (Alt.ErrorMsg message)] None)
  /\ (forall (st : Alt.State) (req : Alt.Request) (room message : string),
      ~ In (Alt.ToRoom room (Alt.ErrorMsg message))
          (Alt.emitted (Alt.handle st req))
      /\ ~ In (Alt.ToAll (Alt.ErrorMsg message))
             (Alt.emitted (Alt.handle st req))).
Proof.
  split; [| split; [| split]].
  - intros st req message Hin.
    destruct req as [p n r | k p n | | k p a d r1 r2 | k p | n]; simpl in *.
    + only_error Hin.
    + unfold Simul.join_game in *. destruct (Simul.games st !! k).
      * destruct (bool_decide _); only_error Hin.
      * only_error Hin.
    + unfold Simul.get_available_games in *.
      destruct (Simul.availableGames st); only_error Hin.
    + unfold Simul.submit_move in *. destruct (Simul.games st !! k) as [game|].
      * destruct (Simul.find_id p _); [| only_error Hin].
        destruct (bool_decide _); [only_error Hin |].
        destruct (forallb _ _); [| only_error Hin].
        simpl in Hin. destruct (processBattle_sends_to_room _ _ _ _ Hin).
      * only_error Hin.
    + unfold Simul.leave_game in *. destruct (Simul.games st !! k) as [game|].
      * simpl in Hin. destruct (Simul.find_other p _); only_error Hin.
      * only_error Hin.
    + only_error Hin.
  - intros st req room message Hin.
    destruct req as [p n r | k p n | | k p a d r1 r2 | k p | n]; simpl in *.
    + only_error Hin.
    + unfold Simul.join_game in *. destruct (Simul.games st !! k).
      * destruct (bool_decide _); only_error Hin.
      * only_error Hin.
    + unfold Simul.get_available_games in *.
      destruct (Simul.availableGames st); only_error Hin.
    + unfold Simul.submit_move in *. destruct (Simul.games st !! k) as [game|].
      * destruct (Simul.find_id p _); [| only_error Hin].
        destruct (bool_decide _); [only_error Hin |].
        destruct (forallb _ _); [| only_error Hin].
        simpl in Hin. unfold Simul.processBattle in Hin.
        match type of Hin with
        | context [match ?l with _ => _ end] =>
            destruct l as [|q1 [|q2 rest]]
        end; try only_error Hin.
        cbv zeta in Hin.
        destruct (bool_decide _ || bool_decide _); only_error Hin.
      * only_error Hin.
    + unfold Simul.leave_game in *. destruct (Simul.games st !! k) as [game|].
      * simpl in Hin. destruct (Simul.find_other p _); only_error Hin.
      * only_error Hin.
    + only_error Hin.
  - intros st req message Hin.
    destruct req as [p n r | k p n | | k p a | k p d r | k p | n]; simpl in *.
    + unfold Alt.create_game in *.
      apply broadcastAvailableGames_emitted in Hin as [Hin | (listing & Hin)];
        only_error Hin.
    + unfold Alt.join_game in *. destruct (Alt.games st !! k);
        [| only_error Hin].
      destruct (bool_decide _); [only_error Hin |].
      apply broadcastAvailableGames_emitted in Hin as [Hin | (listing & Hin)];
        only_error Hin.
    + unfold Alt.get_available_games in *.
      destruct (Alt.availableGames _); only_error Hin.
    + unfold Alt.submit_attack in *. destruct (Alt.games st !! k);
        [| only_error Hin].
      destruct (Alt.find_id p _); [| only_error Hin].
      destruct (bool_decide _ || bool_decide _); [only_error Hin |].
      cbv zeta in Hin. destruct (Alt.find_other p _); only_error Hin.
    + unfold Alt.submit_defense in *. destruct (Alt.games st !! k);
        [| only_error Hin].
      destruct (Alt.find_id p _); [| only_error Hin].
      destruct (Alt.pendingAttack _) as [pending|]; [| only_error Hin].
      cbv zeta in Hin.
      destruct (Alt.find_id (Alt.pending_playerId pending) _);
        [destruct (bool_decide _) |]; only_error Hin.
    + unfold Alt.leave_game in *. destruct (Alt.games st !! k);
        [| only_error Hin].
      cbv zeta in Hin. simpl in Hin. destruct (List.filter _ _);
        apply broadcastAvailableGames_emitted in Hin as [Hin | (listing & Hin)];
        only_error Hin.
    + only_error Hin.
  - intros st req room message. split; intros Hin; alt_cases st req Hin;
      only_error Hin.
Qed.

Lemma error_reply_is_alone_witness :
  Alt.handle Scenario.altPaired (Alt.JoinGame "ABC123" "c" "Cy")
  = Alt.mkResult Scenario.altPaired
      [Alt.ToSocket (Alt.ErrorMsg "Game is full")] None
  /\ Simul.handle Scenario.paired
       (Simul.SubmitMove "ABC123" "b" "rock" "paper" 0 0)
     = Simul.mkResult Scenario.paired
         [Simul.ToSocket (Simul.ErrorMsg "Not your turn")] None.
Proof.
  destruct error_reply_is_alone as (HS & _ & HA & _). split.
  - apply HA. vm_compute. left. reflexivity.
  - apply HS. vm_compute. left. reflexivity.
Defined.
